(** * mnewswanger/filesystem: a shallow embedding of the Go wrappers

    The repository holds three lineages of the same small package:

    - [ValueReceiver]: src/filesystem.go, methods on [Filesystem] by value,
      [CheckExists] returning [(bool, error)];
    - [PointerReceiver]: the struct-based set with pointer receivers
      (first package of src/unnamed/part_001), [CheckExists] returning [bool];
    - [PackageLevel]: the package-level functions without error results
      (second package of src/unnamed/part_001).

    Every function is a thin wrapper around calls into the Go standard
    library ([os], [io/ioutil], [crypto/sha256], [encoding/hex]) and
    go-homedir.  Those calls are the boundary of the embedding: the class
    [NativeOS] gives each of them as a function of the state of the machine,
    the wrappers are written over that class in a state-and-panic monad, and
    [MemFS] is one executable instance (a table of directories and files) on
    which the wrappers can be run.

    The logger.  A call on a logger returns nothing that the wrappers use,
    and it returns whenever the logger is there.  In the pointer-receiver
    lineage [fs.initialize()] puts a logger into the struct before the first
    such call ([Logging.Pointer.initialize]), so those calls are left out.
    In src/filesystem.go [initialize] has a value receiver: it fills the
    logger of a copy, and the methods go on with the logger their receiver
    came with.  [fs.logger.Info] in [BuildAbsolutePathFromHome] is therefore
    kept: on a receiver without a logger it is a call on a nil
    [*logrus.Logger], which panics.  The field [logger] is not exported, so
    every [Filesystem] built outside the package is such a receiver. *)

From Stdlib Require Import String Ascii List ZArith Bool Lia.
Import ListNotations.
Local Open Scope string_scope.
Local Open Scope Z_scope.

(** ** Go values *)

(** Error numbers of the system calls behind [os]. *)
Inductive errno : Type :=
| ENOENT | EACCES | ENOTDIR | EISDIR | ENOTEMPTY | EEXIST | EIO
| ENAMETOOLONG | EINVAL.

(** A non-nil Go [error]; the nil error is [None : option error]. *)
Inductive error : Type :=
| SyscallError (e : errno)      (* *os.PathError wrapping a syscall.Errno *)
| ErrorsNew (msg : string)      (* errors.New(msg) *)
| io_EOF                        (* io.EOF *)
| os_ErrInvalid.                (* os.ErrInvalid *)

(** [err == nil] *)
Definition is_nil {A : Type} (x : option A) : bool :=
  match x with None => true | Some _ => false end.

(** [err == io.EOF] *)
Definition is_EOF (err : option error) : bool :=
  match err with Some io_EOF => true | _ => false end.

(** [os.IsNotExist]: true exactly for the errors that report a missing
    entry (ENOENT); false for nil and for every other failure. *)
Definition os_IsNotExist (err : option error) : bool :=
  match err with Some (SyscallError ENOENT) => true | _ => false end.

(** [os.FileInfo], as far as the package looks at it. *)
Record FileInfo : Type := mkFileInfo { fi_Name : string; fi_IsDir : bool }.

(** [*os.File]: an open handle, known by the name it was opened with. *)
Record File : Type := mkFile { file_name : string }.

(** [os.FileMode] *)
Definition FileMode : Type := Z.

(** [[]byte]; Go strings are byte sequences too, so [string(contents)] and
    [[]byte(s)] are the identity on this representation. *)
Definition bytes : Type := string.

(** What stops a goroutine instead of returning. *)
Inductive panic : Type :=
| NilDereference       (* a method called on a nil interface value *)
| IndexOutOfRange      (* s[i] with i outside 0 <= i < len(s) *)
| PanicValue (v : option error).  (* panic(err) *)

Inductive Result (A : Type) : Type :=
| Ok (a : A)
| Panic (p : panic).
Arguments Ok {A} a.
Arguments Panic {A} p.

(** ** The state-and-panic monad of the wrappers *)

Definition Go (W A : Type) : Type := W -> Result (A * W).

Definition ret {W A : Type} (a : A) : Go W A := fun w => Ok (a, w).

Definition bind {W A B : Type} (m : Go W A) (k : A -> Go W B) : Go W B :=
  fun w => match m w with
           | Ok (a, w') => k a w'
           | Panic p => Panic p
           end.

Definition raise {W A : Type} (p : panic) : Go W A := fun _ => Panic p.

(** A call that only reads the machine. *)
Definition observe {W A : Type} (f : W -> A) : Go W A := fun w => Ok (f w, w).

(** A call that changes the machine and reports an error or nil. *)
Definition perform {W : Type} (f : W -> option error * W) : Go W (option error) :=
  fun w => Ok (f w).

Declare Scope go_scope.
Delimit Scope go_scope with go.
Notation "x <- m ;; k" := (bind m (fun x => k))
  (at level 61, m at next level, right associativity) : go_scope.
Notation "' pat <- m ;; k" := (bind m (fun x => match x with pat => k end))
  (at level 61, pat pattern, m at next level, right associativity) : go_scope.
Local Open Scope go_scope.

(** ** Byte indexing of Go strings *)

Fixpoint nth_byte (s : string) (n : nat) : option ascii :=
  match s, n with
  | EmptyString, _ => None
  | String c _, O => Some c
  | String _ r, S n' => nth_byte r n'
  end.

(** [len(s)] *)
Definition len (s : string) : Z := Z.of_nat (String.length s).

(** [s[i]]: a run-time panic when [i] is out of range. *)
Definition string_index (s : string) (i : Z) : Result ascii :=
  if (i <? 0) || (len s <=? i) then Panic IndexOutOfRange
  else match nth_byte s (Z.to_nat i) with
       | Some c => Ok c
       | None => Panic IndexOutOfRange
       end.

(** [string(b) != "/"] for a byte [b]: the conversion yields the UTF-8
    encoding of the code point [b], which is the one-byte string "/" exactly
    when [b] is the byte '/'. *)
Definition byte_is_not_slash (b : ascii) : bool := negb (Ascii.eqb b "/"%char).

(** ** crypto/sha256 and encoding/hex

    SHA-256 as FIPS 180-4 gives it, on bytes and 32-bit words kept in [Z]
    with the wrap-around written out. *)

Module SHA256.

Definition w32 (x : Z) : Z := x mod 4294967296.
Definition add32 (x y : Z) : Z := w32 (x + y).
Definition rotr (n x : Z) : Z := Z.lor (Z.shiftr x n) (w32 (Z.shiftl x (32 - n))).
Definition not32 (x : Z) : Z := Z.lxor x 4294967295.

Definition Ch (x y z : Z) : Z := Z.lxor (Z.land x y) (Z.land (not32 x) z).
Definition Maj (x y z : Z) : Z :=
  Z.lxor (Z.lxor (Z.land x y) (Z.land x z)) (Z.land y z).
Definition Sigma0 (x : Z) : Z := Z.lxor (Z.lxor (rotr 2 x) (rotr 13 x)) (rotr 22 x).
Definition Sigma1 (x : Z) : Z := Z.lxor (Z.lxor (rotr 6 x) (rotr 11 x)) (rotr 25 x).
Definition sigma0 (x : Z) : Z := Z.lxor (Z.lxor (rotr 7 x) (rotr 18 x)) (Z.shiftr x 3).
Definition sigma1 (x : Z) : Z := Z.lxor (Z.lxor (rotr 17 x) (rotr 19 x)) (Z.shiftr x 10).

(** The round constants K0 ... K63 (the fractional parts of the cube roots of
    the first 64 primes), in decimal. *)
Definition K : list Z :=
  [
    1116352408; 1899447441; 3049323471; 3921009573;
    961987163; 1508970993; 2453635748; 2870763221;
    3624381080; 310598401; 607225278; 1426881987;
    1925078388; 2162078206; 2614888103; 3248222580;
    3835390401; 4022224774; 264347078; 604807628;
    770255983; 1249150122; 1555081692; 1996064986;
    2554220882; 2821834349; 2952996808; 3210313671;
    3336571891; 3584528711; 113926993; 338241895;
    666307205; 773529912; 1294757372; 1396182291;
    1695183700; 1986661051; 2177026350; 2456956037;
    2730485921; 2820302411; 3259730800; 3345764771;
    3516065817; 3600352804; 4094571909; 275423344;
    430227734; 506948616; 659060556; 883997877;
    958139571; 1322822218; 1537002063; 1747873779;
    1955562222; 2024104815; 2227730452; 2361852424;
    2428436474; 2756734187; 3204031479; 3329325298 ].

Record state : Type := mkState {
  h0 : Z; h1 : Z; h2 : Z; h3 : Z; h4 : Z; h5 : Z; h6 : Z; h7 : Z }.

Definition init : state :=
  mkState 1779033703 3144134277 1013904242 2773480762
          1359893119 2600822924 528734635 1541459225.

(** Big-endian words of a block of bytes. *)
Fixpoint words (bs : list Z) : list Z :=
  match bs with
  | b0 :: b1 :: b2 :: b3 :: r =>
      (Z.shiftl b0 24 + Z.shiftl b1 16 + Z.shiftl b2 8 + b3) :: words r
  | _ => []
  end.

(** The message schedule, newest word first: [extend n ws] adds [n] words. *)
Fixpoint extend (n : nat) (rev_w : list Z) : list Z :=
  match n with
  | O => rev_w
  | S n' =>
      let w := add32 (add32 (sigma1 (nth 1 rev_w 0)) (nth 6 rev_w 0))
                     (add32 (sigma0 (nth 14 rev_w 0)) (nth 15 rev_w 0)) in
      extend n' (w :: rev_w)
  end.

Definition schedule (block : list Z) : list Z :=
  rev (extend 48 (rev (words block))).

Definition round (s : state) (kw : Z * Z) : state :=
  let (k, w) := kw in
  let t1 := add32 (add32 (add32 (add32 (h7 s) (Sigma1 (h4 s))) (Ch (h4 s) (h5 s) (h6 s))) k) w in
  let t2 := add32 (Sigma0 (h0 s)) (Maj (h0 s) (h1 s) (h2 s)) in
  mkState (add32 t1 t2) (h0 s) (h1 s) (h2 s) (add32 (h3 s) t1) (h4 s) (h5 s) (h6 s).

Definition compress (s : state) (block : list Z) : state :=
  let r := fold_left round (combine K (schedule block)) s in
  mkState (add32 (h0 s) (h0 r)) (add32 (h1 s) (h1 r)) (add32 (h2 s) (h2 r))
          (add32 (h3 s) (h3 r)) (add32 (h4 s) (h4 r)) (add32 (h5 s) (h5 r))
          (add32 (h6 s) (h6 r)) (add32 (h7 s) (h7 r)).

Definition be32 (x : Z) : list Z :=
  [ Z.shiftr x 24 mod 256; Z.shiftr x 16 mod 256; Z.shiftr x 8 mod 256; x mod 256 ].

Definition be64 (x : Z) : list Z := be32 (Z.shiftr x 32) ++ be32 x.

(** The message followed by 0x80, zero bytes up to 56 modulo 64, and the bit
    length on eight bytes. *)
Definition pad (msg : list Z) : list Z :=
  let n := Z.of_nat (length msg) in
  let zeros := Z.to_nat ((55 - n) mod 64) in
  msg ++ [128] ++ repeat 0 zeros ++ be64 (8 * n).

Fixpoint blocks (count : nat) (s : state) (bs : list Z) : state :=
  match count with
  | O => s
  | S c => blocks c (compress s (firstn 64 bs)) (skipn 64 bs)
  end.

Definition digest (s : state) : list Z :=
  be32 (h0 s) ++ be32 (h1 s) ++ be32 (h2 s) ++ be32 (h3 s) ++
  be32 (h4 s) ++ be32 (h5 s) ++ be32 (h6 s) ++ be32 (h7 s).

(** [sha256.Sum256] *)
Definition Sum256 (data : list Z) : list Z :=
  let p := pad data in
  digest (blocks (Nat.div (length p) 64) init p).

End SHA256.

(** The bytes of a Go string or [[]byte]. *)
Fixpoint bytes_of (s : string) : list Z :=
  match s with
  | EmptyString => []
  | String c r => Z.of_N (N_of_ascii c) :: bytes_of r
  end.

Definition hextable : string := "0123456789abcdef".

(** [hextable[n]] *)
Definition hexdigit (n : Z) : ascii :=
  match get (Z.to_nat n) hextable with Some c => c | None => "0"%char end.

(** [hex.EncodeToString]: two digits of [hextable] per byte, [v >> 4] then
    [v & 0x0f]. *)
Fixpoint hex_EncodeToString (src : list Z) : string :=
  match src with
  | [] => EmptyString
  | v :: r =>
      String (hexdigit (Z.shiftr v 4))
        (String (hexdigit (Z.land v 15)) (hex_EncodeToString r))
  end.

(** ** The native calls *)

(** The calls the package makes out of itself, as functions of the machine
    state [W].  A call that returns a pointer or an interface together with
    an error ([os.Stat], [os.Open]) returns exactly one of the two, as the
    [os] package documents: here a sum.  [os_Stat_empty] is the POSIX rule
    that the empty path names no entry. *)
Class NativeOS (W : Type) : Type := {
  homedir_Dir : W -> string * option error;
  filepath_Join : string -> string -> string;
  sys_Stat : W -> string -> error + FileInfo;
  sys_Open : W -> string -> error + File;
  sys_Readdir : W -> File -> Z -> list FileInfo * option error;
  sys_ReadDir : W -> string -> list FileInfo * option error;
  sys_ReadFile : W -> string -> bytes * option error;
  sys_WriteFile : string -> bytes -> FileMode -> W -> option error * W;
  sys_MkdirAll : string -> FileMode -> W -> option error * W;
  sys_Remove : string -> W -> option error * W;
  sys_RemoveAll : string -> W -> option error * W;
  os_Stat_empty : forall w, sys_Stat w EmptyString = inl (SyscallError ENOENT)
}.

(** The Go pair [(value, err)] of a call that returns one or the other:
    the value is nil next to an error. *)
Definition go_pair {A : Type} (r : error + A) : option A * option error :=
  match r with
  | inr a => (Some a, None)
  | inl e => (None, Some e)
  end.

Section NativeCalls.
Context {W : Type} `{NativeOS W}.

(** [os.Stat(path)] *)
Definition os_Stat (path : string) : Go W (option FileInfo * option error) :=
  observe (fun w => go_pair (sys_Stat w path)).

(** [stat.IsDir()] on the interface value [stat]; nil has no method to call. *)
Definition FileInfo_IsDir (stat : option FileInfo) : Go W bool :=
  match stat with
  | Some fi => ret (fi_IsDir fi)
  | None => raise NilDereference
  end.

(** [os.Open(path)] *)
Definition os_Open (path : string) : Go W (option File * option error) :=
  observe (fun w => go_pair (sys_Open w path)).

(** [file.Readdir(n)]; a nil [*File] answers [os.ErrInvalid]. *)
Definition File_Readdir (file : option File) (n : Z)
  : Go W (list FileInfo * option error) :=
  match file with
  | Some f => observe (fun w => sys_Readdir w f n)
  | None => ret ([], Some os_ErrInvalid)
  end.

(** [ioutil.ReadDir(path)] *)
Definition ioutil_ReadDir (path : string) : Go W (list FileInfo * option error) :=
  observe (fun w => sys_ReadDir w path).

(** [ioutil.ReadFile(path)] *)
Definition ioutil_ReadFile (path : string) : Go W (bytes * option error) :=
  observe (fun w => sys_ReadFile w path).

(** [ioutil.WriteFile(path, data, mode)] *)
Definition ioutil_WriteFile (path : string) (data : bytes) (mode : FileMode)
  : Go W (option error) :=
  perform (sys_WriteFile path data mode).

(** [os.MkdirAll(path, perm)] *)
Definition os_MkdirAll (path : string) (perm : FileMode) : Go W (option error) :=
  perform (sys_MkdirAll path perm).

(** [os.Remove(path)] *)
Definition os_Remove (path : string) : Go W (option error) :=
  perform (sys_Remove path).

(** [os.RemoveAll(path)] *)
Definition os_RemoveAll (path : string) : Go W (option error) :=
  perform (sys_RemoveAll path).

(** [homedir.Expand] of go-homedir: the empty path and a path that does not
    start with '~' are returned as they are; "~user" is refused; otherwise
    the home directory is joined with what follows the '~'.  Every failure
    returns the empty path with the error. *)
Definition expand (w : W) (path : string) : string * option error :=
  match path with
  | EmptyString => (path, None)
  | String c rest =>
      if negb (Ascii.eqb c "~"%char) then (path, None)
      else
        let user_specific :=
          match rest with
          | EmptyString => false
          | String c1 _ =>
              negb (Ascii.eqb c1 "/"%char) && negb (Ascii.eqb c1 "\"%char)
          end in
        if user_specific
        then (EmptyString, Some (ErrorsNew "cannot expand user-specific home dir"))
        else
          match homedir_Dir w with
          | (_, Some err) => (EmptyString, Some err)
          | (dir, None) => (filepath_Join dir rest, None)
          end
  end.

Definition homedir_Expand (path : string) : Go W (string * option error) :=
  observe (fun w => expand w path).

(** [for _, f := range files { fileNames = append(fileNames, f.Name()) }] *)
Definition append_names (fileNames : list string) (files : list FileInfo)
  : list string :=
  fold_left (fun names f => (names ++ [fi_Name f])%list) files fileNames.

(** [hex.EncodeToString(checksum[:32])] of [checksum := sha256.Sum256(contents)] *)
Definition checksum_string (contents : bytes) : string :=
  let checksum := SHA256.Sum256 (bytes_of contents) in
  hex_EncodeToString (firstn 32 checksum).

End NativeCalls.

(** ** The logger of a [Filesystem]

    [initialize], which every method calls first.  Of logrus only the level
    of a logger is kept. *)

Module Logging.

(** [logrus.Level], least verbose first (logrus numbers them 0 to 5). *)
Inductive Level : Type :=
| PanicLevel | FatalLevel | ErrorLevel | WarnLevel | InfoLevel | DebugLevel.

Definition rank (l : Level) : Z :=
  match l with
  | PanicLevel => 0 | FatalLevel => 1 | ErrorLevel => 2
  | WarnLevel => 3 | InfoLevel => 4 | DebugLevel => 5
  end.

(** [*logrus.Logger] *)
Record Logger : Type := mkLogger { Level_of : Level }.

(** [logrus.New()]: a logger at [InfoLevel]. *)
Definition logrus_New : Logger := mkLogger InfoLevel.

(** [type Filesystem struct { Verbosity uint8; Logger *logrus.Logger }] *)
Record Filesystem : Type := mkFilesystem {
  Verbosity : N;
  Logger_of : option Logger
}.

Module Pointer.

(** part_001, [func (fs *Filesystem) initialize()]: the struct is changed in
    place; case 2 falls through to case 3. *)
Definition initialize (fs : Filesystem) : Filesystem :=
  if is_nil (Logger_of fs) then
    let level :=
      match Verbosity fs with
      | 0%N => ErrorLevel
      | 1%N => WarnLevel
      | 2%N | 3%N => InfoLevel
      | _ => DebugLevel
      end in
    mkFilesystem (Verbosity fs) (Some (mkLogger level))
  else fs.

End Pointer.

Module Value.

(** src/filesystem.go, [func (fs Filesystem) initialize()]: the receiver is
    a copy, so the struct of the caller stays as it is; what the call
    changes is the level of the logger of the logrus package
    ([logrus.SetLevel]), here [std]. *)
Definition initialize (fs : Filesystem) (std : Level) : Level :=
  if is_nil (Logger_of fs) then
    match Verbosity fs with
    | 0%N => WarnLevel
    | 1%N => InfoLevel
    | 2%N => DebugLevel
    | _ => std
    end
  else std.

End Value.

End Logging.

(** ** src/filesystem.go: methods on [Filesystem] by value *)

Module ValueReceiver.
Section Methods.
Context {W : Type} `{NativeOS W}.

(** [fs.logger.Info(...)]: a method of [*logrus.Logger] reads the level of
    its receiver; on the nil logger that is a nil dereference. *)
Definition Logger_Info (logger : option Logging.Logger) : Go W unit :=
  match logger with
  | Some _ => ret tt
  | None => raise NilDereference
  end.

(** BuildAbsolutePathFromHome builds an absolute path (i.e. /home/user/example)
    from a home-based path (~/example).  [fs.initialize()] before it works
    on a copy of [fs]: [fs.logger] is what the receiver came with. *)
Definition BuildAbsolutePathFromHome (fs : Logging.Filesystem) (path : string)
  : Go W (string * option error) :=
  '(path, err) <- homedir_Expand path ;;
  _ <- Logger_Info (Logging.Logger_of fs) ;;
  ret (path, err).

(** IsDirectory returns when path exists and is a directory:
    [!os.IsNotExist(err) && stat.IsDir()] *)
Definition IsDirectory (fs : Logging.Filesystem) (path : string) : Go W bool :=
  '(path, _) <- BuildAbsolutePathFromHome fs path ;;
  '(stat, err) <- os_Stat path ;;
  if negb (os_IsNotExist err) then FileInfo_IsDir stat else ret false.

(** IsFile returns when path exists and is a file:
    [!os.IsNotExist(err) && !stat.IsDir()] *)
Definition IsFile (fs : Logging.Filesystem) (path : string) : Go W bool :=
  '(path, _) <- BuildAbsolutePathFromHome fs path ;;
  '(stat, err) <- os_Stat path ;;
  if negb (os_IsNotExist err)
  then (d <- FileInfo_IsDir stat ;; ret (negb d))
  else ret false.

(** CheckExists checks to see if the provided path exists on the machine *)
Definition CheckExists (fs : Logging.Filesystem) (path : string)
  : Go W (bool * option error) :=
  '(path, err) <- BuildAbsolutePathFromHome fs path ;;
  if is_nil err then
    '(_, e) <- os_Stat path ;;
    if negb (os_IsNotExist e) then ret (true, err) else ret (false, err)
  else ret (false, err).

(** CreateDirectory creates a directory on the machine;
    all children will be created (behavior matches mkdir -p).
    The source looks at the directory and makes it under [if err != nil]. *)
Definition CreateDirectory (fs : Logging.Filesystem) (path : string)
  : Go W (bool * option error) :=
  '(path, err) <- BuildAbsolutePathFromHome fs path ;;
  if negb (is_nil err) then
    d <- IsDirectory fs path ;;
    if d then ret (true, err)
    else
      err <- os_MkdirAll path 493 ;;       (* 0755 *)
      ret (is_nil err, err)
  else ret (is_nil err, err).

(** ForceTrailingSlash forces a trailing slash at the end of the path
    (the receiver is not looked at) *)
Definition ForceTrailingSlash (path : string) : Result string :=
  match string_index path (len path - 1) with
  | Panic p => Panic p
  | Ok b => if byte_is_not_slash b then Ok (path ++ "/") else Ok path
  end.

(** GetDirectoryContents gets the files and folders inside the provided path
    (the receiver is not looked at) *)
Definition GetDirectoryContents (path : string)
  : Go W (list string * option error) :=
  let fileNames : list string := [] in
  '(files, err) <- ioutil_ReadDir path ;;
  if is_nil err
  then ret (append_names fileNames files, err)
  else ret (fileNames, err).

(** GetFileSHA256Checksum gets the SHA-256 checksum of the file as a hex string *)
Definition GetFileSHA256Checksum (fs : Logging.Filesystem) (path : string)
  : Go W (string * option error) :=
  '(path, err) <- BuildAbsolutePathFromHome fs path ;;
  if is_nil err then
    f <- IsFile fs path ;;
    if f then
      '(contents, err) <- ioutil_ReadFile path ;;     (* contents, err = ... *)
      if is_nil err then ret (checksum_string contents, err)
      else ret (EmptyString, err)
    else
      let err := Some (ErrorsNew (path ++ " is not a file")) in
      ret (EmptyString, err)
  else ret (EmptyString, err).

(** IsEmptyDirectory returns when path exists and is an empty directory *)
Definition IsEmptyDirectory (fs : Logging.Filesystem) (path : string) : Go W bool :=
  '(path, _) <- BuildAbsolutePathFromHome fs path ;;
  d <- IsDirectory fs path ;;
  if d then
    '(file, err) <- os_Open path ;;
    if is_nil err then
      '(contents, err) <- File_Readdir file 1 ;;
      if negb (is_nil err) && negb (is_EOF err) then raise (PanicValue err)
      else ret (Z.of_nat (List.length contents) =? 0)
    else ret false
  else ret false.

(** LoadFileIfExists loads the contents of path into a string if the file
    exists.  [contents, err := ioutil.ReadFile(path)] declares a second [err]
    inside the block: the one returned at the end is the outer one. *)
Definition LoadFileIfExists (fs : Logging.Filesystem) (path : string)
  : Go W (string * option error) :=
  '(path, err) <- BuildAbsolutePathFromHome fs path ;;
  if is_nil err then
    f <- IsFile fs path ;;
    if f then
      '(contents, err') <- ioutil_ReadFile path ;;    (* contents, err := ... *)
      if is_nil err' then ret (contents, err')
      else ret (EmptyString, err)
    else
      let err := Some (ErrorsNew (path ++ " is not a file")) in
      ret (EmptyString, err)
  else ret (EmptyString, err).

(** RemoveDirectory removes the directory at path from the system;
    if recursive is set to true, it will remove all children as well *)
Definition RemoveDirectory (fs : Logging.Filesystem) (path : string)
  (recursive : bool) : Go W (bool * option error) :=
  d <- IsDirectory fs path ;;
  if d then
    err <- (if recursive then os_RemoveAll path else os_Remove path) ;;
    if is_nil err then ret (true, err) else ret (false, err)
  else
    let err := Some (ErrorsNew (path ++ " is not a directory")) in
    ret (false, err).

(** WriteFile writes contents of data to path *)
Definition WriteFile (fs : Logging.Filesystem) (path : string) (data : bytes)
  (mode : FileMode) : Go W (option error) :=
  '(path, err) <- BuildAbsolutePathFromHome fs path ;;
  if is_nil err then ioutil_WriteFile path data mode else ret err.

End Methods.
End ValueReceiver.

(** ** src/unnamed/part_001, first package: methods on [*Filesystem] *)

Module PointerReceiver.
Section Methods.
Context {W : Type} `{NativeOS W}.

(** BuildAbsolutePathFromHome builds an absolute path (i.e. /home/user/example)
    from a home-based path (~/example) *)
Definition BuildAbsolutePathFromHome (path : string)
  : Go W (string * option error) :=
  '(path, err) <- homedir_Expand path ;;
  ret (path, err).

(** Check to see if the path provided is a directory *)
Definition isDirectory (path : string) : Go W bool :=
  '(stat, err) <- os_Stat path ;;
  if negb (os_IsNotExist err) then FileInfo_IsDir stat else ret false.

(** isFile checks to see if the file exists on the filesystem *)
Definition isFile (path : string) : Go W bool :=
  '(stat, err) <- os_Stat path ;;
  if negb (os_IsNotExist err)
  then (d <- FileInfo_IsDir stat ;; ret (negb d))
  else ret false.

(** CheckExists checks to see if the provided path exists on the machine *)
Definition CheckExists (path : string) : Go W bool :=
  '(path, err) <- BuildAbsolutePathFromHome path ;;
  if is_nil err then
    '(_, e) <- os_Stat path ;;
    if negb (os_IsNotExist e) then ret true else ret false
  else ret false.

(** CreateDirectory creates a directory on the machine;
    all children will be created (behavior matches mkdir -p) *)
Definition CreateDirectory (path : string) : Go W (bool * option error) :=
  '(path, err) <- BuildAbsolutePathFromHome path ;;
  if is_nil err then
    d <- isDirectory path ;;
    if negb d then
      err <- os_MkdirAll path 493 ;;       (* 0755 *)
      ret (is_nil err, err)
    else ret (is_nil err, err)
  else ret (is_nil err, err).

(** ForceTrailingSlash forces a trailing slash at the end of the path *)
Definition ForceTrailingSlash (path : string) : Result string :=
  if len path =? 0 then Ok "/"
  else
    match string_index path (len path - 1) with
    | Panic p => Panic p
    | Ok b => if byte_is_not_slash b then Ok (path ++ "/") else Ok path
    end.

(** GetDirectoryContents gets the files and folders inside the provided path;
    the error of the expansion is overwritten by the one of [ioutil.ReadDir]. *)
Definition GetDirectoryContents (path : string)
  : Go W (list string * option error) :=
  '(path, _) <- BuildAbsolutePathFromHome path ;;
  let fileNames : list string := [] in
  '(files, err) <- ioutil_ReadDir path ;;
  if is_nil err
  then ret (append_names fileNames files, err)
  else ret (fileNames, err).

(** GetFileSHA256Checksum gets the SHA-256 checksum of the file as a hex string *)
Definition GetFileSHA256Checksum (path : string)
  : Go W (string * option error) :=
  '(path, err) <- BuildAbsolutePathFromHome path ;;
  if is_nil err then
    f <- isFile path ;;
    if f then
      '(contents, err) <- ioutil_ReadFile path ;;     (* contents, err = ... *)
      if is_nil err then ret (checksum_string contents, err)
      else ret (EmptyString, err)
    else
      let err := Some (ErrorsNew (path ++ " is not a file")) in
      ret (EmptyString, err)
  else ret (EmptyString, err).

(** IsDirectory returns when path exists and is a directory; supports ~ expansion *)
Definition IsDirectory (path : string) : Go W bool :=
  '(path, err) <- BuildAbsolutePathFromHome path ;;
  if is_nil err then isDirectory path else ret false.

(** IsEmptyDirectory returns when path exists and is an empty directory;
    supports ~ expansion *)
Definition IsEmptyDirectory (path : string) : Go W bool :=
  '(path, err) <- BuildAbsolutePathFromHome path ;;
  if is_nil err then
    d <- isDirectory path ;;
    if d then
      '(file, err) <- os_Open path ;;
      if is_nil err then
        '(contents, err) <- File_Readdir file 1 ;;
        if is_nil err || is_EOF err
        then ret (Z.of_nat (List.length contents) =? 0)
        else ret false
      else ret false
    else ret false
  else ret false.

(** IsFile returns when path exists and is a file; supports ~ expansion *)
Definition IsFile (path : string) : Go W bool :=
  '(path, err) <- BuildAbsolutePathFromHome path ;;
  if is_nil err then isFile path else ret false.

(** LoadFileIfExists loads the contents of path into a string if the file
    exists.  [contents, err := ioutil.ReadFile(path)] declares a second [err]
    inside the block: the one returned at the end is the outer one. *)
Definition LoadFileIfExists (path : string) : Go W (string * option error) :=
  '(path, err) <- BuildAbsolutePathFromHome path ;;
  if is_nil err then
    f <- isFile path ;;
    if f then
      '(contents, err') <- ioutil_ReadFile path ;;    (* contents, err := ... *)
      if is_nil err' then ret (contents, err')
      else ret (EmptyString, err)
    else
      let err := Some (ErrorsNew (path ++ " is not a file")) in
      ret (EmptyString, err)
  else ret (EmptyString, err).

(** RemoveDirectory removes the directory at path from the system;
    if recursive is set to true, it will remove all children as well *)
Definition RemoveDirectory (path : string) (recursive : bool)
  : Go W (bool * option error) :=
  '(path, err) <- BuildAbsolutePathFromHome path ;;
  if is_nil err then
    d <- isDirectory path ;;
    if d then
      err <- (if recursive then os_RemoveAll path else os_Remove path) ;;
      if is_nil err then ret (true, err) else ret (false, err)
    else
      let err := Some (ErrorsNew (path ++ " is not a directory")) in
      ret (false, err)
  else ret (false, err).

(** WriteFile writes contents of data to path *)
Definition WriteFile (path : string) (data : bytes) (mode : FileMode)
  : Go W (option error) :=
  '(path, err) <- BuildAbsolutePathFromHome path ;;
  if is_nil err then ioutil_WriteFile path data mode else ret err.

End Methods.
End PointerReceiver.

(** ** src/unnamed/part_001, second package: package-level functions *)

Module PackageLevel.
Section Functions.
Context {W : Type} `{NativeOS W}.

Definition BuildAbsolutePathFromHome (path : string) : Go W string :=
  '(path, _) <- homedir_Expand path ;;
  ret path.

Definition CheckExists (path : string) : Go W bool :=
  path <- BuildAbsolutePathFromHome path ;;
  '(_, err) <- os_Stat path ;;
  ret (negb (os_IsNotExist err)).

Definition IsDirectory (path : string) : Go W bool :=
  path <- BuildAbsolutePathFromHome path ;;
  '(stat, err) <- os_Stat path ;;
  if negb (os_IsNotExist err) then FileInfo_IsDir stat else ret false.

Definition IsFile (path : string) : Go W bool :=
  path <- BuildAbsolutePathFromHome path ;;
  '(stat, err) <- os_Stat path ;;
  if negb (os_IsNotExist err)
  then (d <- FileInfo_IsDir stat ;; ret (negb d))
  else ret false.

Definition CreateDirectory (path : string) : Go W bool :=
  path <- BuildAbsolutePathFromHome path ;;
  d <- IsDirectory path ;;
  if d then ret true
  else
    err <- os_MkdirAll path 493 ;;         (* 0755 *)
    ret (is_nil err).

Definition ForceTrailingSlash (path : string) : Result string :=
  match string_index path (len path - 1) with
  | Panic p => Panic p
  | Ok b => if byte_is_not_slash b then Ok (path ++ "/") else Ok path
  end.

Definition GetDirectoryContents (path : string) : Go W (list string) :=
  let fileNames : list string := [] in
  '(files, _) <- ioutil_ReadDir path ;;
  ret (append_names fileNames files).

Definition IsEmptyDirectory (path : string) : Go W bool :=
  path <- BuildAbsolutePathFromHome path ;;
  d <- IsDirectory path ;;
  if d then
    '(file, err) <- os_Open path ;;
    if is_nil err then
      '(contents, err) <- File_Readdir file 1 ;;
      if negb (is_nil err) && negb (is_EOF err) then raise (PanicValue err)
      else ret (Z.of_nat (List.length contents) =? 0)
    else ret false
  else ret false.

Definition LoadFileIfExists (path : string) : Go W string :=
  path <- BuildAbsolutePathFromHome path ;;
  f <- IsFile path ;;
  if f then
    '(contents, err) <- ioutil_ReadFile path ;;
    if negb (is_nil err) then raise (PanicValue err)
    else ret contents
  else ret EmptyString.

Definition WriteFile (path : string) (data : bytes) (mode : FileMode) : Go W unit :=
  path <- BuildAbsolutePathFromHome path ;;
  _ <- ioutil_WriteFile path data mode ;;
  ret tt.

End Functions.
End PackageLevel.

(** ** An executable machine

    One instance of [NativeOS], to run the wrappers on: a table from
    absolute paths (as their segments) to directories and files, looked up
    the way the kernel resolves a path.  The working directory is the root;
    "." and ".." are not interpreted.  Of the permission bits only the
    owner's read bit of a file and search bit of a directory are kept. *)

Module MemFS.

Inductive node : Type :=
| RegularFile (readable : bool) (data : bytes)
| Directory (searchable : bool).

Definition is_dir (n : node) : bool :=
  match n with Directory _ => true | RegularFile _ _ => false end.

Record machine : Type := mkMachine {
  home : option string;                  (* the user's home directory, if known *)
  entries : list (list string * node)    (* every entry but the root *)
}.

(** The segments between the slashes, empty ones dropped. *)
Fixpoint segments_from (s cur : string) : list string :=
  match s with
  | EmptyString => if (cur =? EmptyString)%string then [] else [cur]
  | String c r =>
      if Ascii.eqb c "/"%char
      then (if (cur =? EmptyString)%string then segments_from r EmptyString
            else cur :: segments_from r EmptyString)
      else segments_from r (cur ++ String c EmptyString)
  end.

Definition segments (path : string) : list string := segments_from path EmptyString.

Fixpoint same_path (a b : list string) : bool :=
  match a, b with
  | [], [] => true
  | x :: a', y :: b' => (x =? y)%string && same_path a' b'
  | _, _ => false
  end.

(** [child_name dir key]: the name of [key] inside [dir] when [key] is an
    immediate child of [dir]. *)
Fixpoint child_name (dir key : list string) : option string :=
  match dir, key with
  | [], [name] => Some name
  | x :: dir', y :: key' => if (x =? y)%string then child_name dir' key' else None
  | _, _ => None
  end.

Fixpoint is_below (dir key : list string) : bool :=
  match dir, key with
  | [], _ => true
  | x :: dir', y :: key' => (x =? y)%string && is_below dir' key'
  | _ :: _, [] => false
  end.

Definition node_at (es : list (list string * node)) (p : list string) : option node :=
  match p with
  | [] => Some (Directory true)
  | _ => option_map snd (find (fun e => same_path (fst e) p) es)
  end.

(** Path resolution: every directory on the way must exist and be
    searchable. *)
Fixpoint resolve (es : list (list string * node)) (cur rest : list string)
  : error + node :=
  match rest with
  | [] => match node_at es cur with
          | Some n => inr n
          | None => inl (SyscallError ENOENT)
          end
  | s :: rest' =>
      match node_at es cur with
      | None => inl (SyscallError ENOENT)
      | Some (RegularFile _ _) => inl (SyscallError ENOTDIR)
      | Some (Directory false) => inl (SyscallError EACCES)
      | Some (Directory true) => resolve es (cur ++ [s])%list rest'
      end
  end.

Definition locate (m : machine) (path : string) : error + node :=
  if (path =? EmptyString)%string then inl (SyscallError ENOENT)
  else resolve (entries m) [] (segments path).

Definition children (es : list (list string * node)) (dir : list string)
  : list FileInfo :=
  flat_map (fun e => match child_name dir (fst e) with
                     | Some name => [mkFileInfo name (is_dir (snd e))]
                     | None => []
                     end) es.

Fixpoint insert_by_name (f : FileInfo) (l : list FileInfo) : list FileInfo :=
  match l with
  | [] => [f]
  | g :: l' => if String.leb (fi_Name f) (fi_Name g) then f :: l
               else g :: insert_by_name f l'
  end.

Definition sort_by_name (l : list FileInfo) : list FileInfo :=
  fold_right insert_by_name [] l.

Definition Dir (m : machine) : string * option error :=
  match home m with
  | Some h => (h, None)
  | None => (EmptyString, Some (ErrorsNew "missing home directory"))
  end.

(** [filepath.Join] on paths without "." and "..": the segments of both,
    one slash between them. *)
Definition Join (dir rest : string) : string :=
  let segs := (segments dir ++ segments rest)%list in
  match dir with
  | String "/"%char _ => "/" ++ String.concat "/" segs
  | _ => String.concat "/" segs
  end.

Definition Stat (m : machine) (path : string) : error + FileInfo :=
  match locate m path with
  | inr n => inr (mkFileInfo (last (segments path) "/") (is_dir n))
  | inl e => inl e
  end.

Definition Open (m : machine) (path : string) : error + File :=
  match locate m path with
  | inr (RegularFile false _) => inl (SyscallError EACCES)
  | inr _ => inr (mkFile path)
  | inl e => inl e
  end.

Definition Readdir (m : machine) (f : File) (n : Z) : list FileInfo * option error :=
  match locate m (file_name f) with
  | inr (Directory _) =>
      let cs := children (entries m) (segments (file_name f)) in
      if 0 <? n then
        match cs with
        | [] => ([], Some io_EOF)
        | _ => (firstn (Z.to_nat n) cs, None)
        end
      else (cs, None)
  | inr (RegularFile _ _) => ([], Some (SyscallError ENOTDIR))
  | inl e => ([], Some e)
  end.

Definition ReadDir (m : machine) (path : string) : list FileInfo * option error :=
  match locate m path with
  | inr (Directory _) => (sort_by_name (children (entries m) (segments path)), None)
  | inr (RegularFile _ _) => ([], Some (SyscallError ENOTDIR))
  | inl e => ([], Some e)
  end.

Definition ReadFile (m : machine) (path : string) : bytes * option error :=
  match locate m path with
  | inr (RegularFile true data) => (data, None)
  | inr (RegularFile false _) => (EmptyString, Some (SyscallError EACCES))
  | inr (Directory _) => (EmptyString, Some (SyscallError EISDIR))
  | inl e => (EmptyString, Some e)
  end.

Definition replace_entry (es : list (list string * node)) (p : list string) (n : node)
  : list (list string * node) :=
  map (fun e => if same_path (fst e) p then (p, n) else e) es.

Definition remove_entry (es : list (list string * node)) (p : list string)
  : list (list string * node) :=
  filter (fun e => negb (same_path (fst e) p)) es.

(** The file is made with [mode] when it is new and keeps its mode when it
    is there already. *)
Definition WriteFile (path : string) (data : bytes) (mode : FileMode) (m : machine)
  : option error * machine :=
  let p := segments path in
  match locate m path with
  | inr (Directory _) => (Some (SyscallError EISDIR), m)
  | inr (RegularFile r _) =>
      (None, mkMachine (home m) (replace_entry (entries m) p (RegularFile r data)))
  | inl (SyscallError ENOENT) =>
      match p, resolve (entries m) [] (removelast p) with
      | _ :: _, inr (Directory true) =>
          (None, mkMachine (home m)
                   (entries m ++ [(p, RegularFile (Z.testbit mode 8) data)])%list)
      | _ :: _, inr (Directory false) => (Some (SyscallError EACCES), m)
      | _ :: _, inr (RegularFile _ _) => (Some (SyscallError ENOTDIR), m)
      | _, _ => (Some (SyscallError ENOENT), m)
      end
  | inl e => (Some e, m)
  end.

(** Every missing directory of the chain is made, from the root down. *)
Fixpoint mkdir_chain (perm : FileMode) (es : list (list string * node))
  (cur rest : list string) : option error * list (list string * node) :=
  match rest with
  | [] => (None, es)
  | s :: rest' =>
      let next := (cur ++ [s])%list in
      match node_at es cur with
      | Some (Directory true) =>
          match node_at es next with
          | Some (Directory _) => mkdir_chain perm es next rest'
          | Some (RegularFile _ _) => (Some (SyscallError ENOTDIR), es)
          | None =>
              mkdir_chain perm (es ++ [(next, Directory (Z.testbit perm 6))])%list
                          next rest'
          end
      | Some (Directory false) => (Some (SyscallError EACCES), es)
      | Some (RegularFile _ _) => (Some (SyscallError ENOTDIR), es)
      | None => (Some (SyscallError ENOENT), es)
      end
  end.

Definition MkdirAll (path : string) (perm : FileMode) (m : machine)
  : option error * machine :=
  if (path =? EmptyString)%string then (Some (SyscallError ENOENT), m)
  else
    let (err, es) := mkdir_chain perm (entries m) [] (segments path) in
    (err, mkMachine (home m) es).

Definition Remove (path : string) (m : machine) : option error * machine :=
  let p := segments path in
  match locate m path with
  | inl e => (Some e, m)
  | inr n =>
      match p, n, children (entries m) p with
      | [], _, _ => (Some (SyscallError EINVAL), m)
      | _, Directory _, _ :: _ => (Some (SyscallError ENOTEMPTY), m)
      | _, _, _ => (None, mkMachine (home m) (remove_entry (entries m) p))
      end
  end.

Definition RemoveAll (path : string) (m : machine) : option error * machine :=
  let p := segments path in
  match p with
  | [] => if (path =? EmptyString)%string then (None, m)
          else (Some (SyscallError EINVAL), m)
  | _ => (None, mkMachine (home m)
                  (filter (fun e => negb (is_below p (fst e))) (entries m)))
  end.

Lemma Stat_empty (m : machine) : Stat m EmptyString = inl (SyscallError ENOENT).
Proof. reflexivity. Qed.

#[global] Instance native : NativeOS machine := {
  homedir_Dir := Dir;
  filepath_Join := Join;
  sys_Stat := Stat;
  sys_Open := Open;
  sys_Readdir := Readdir;
  sys_ReadDir := ReadDir;
  sys_ReadFile := ReadFile;
  sys_WriteFile := WriteFile;
  sys_MkdirAll := MkdirAll;
  sys_Remove := Remove;
  sys_RemoveAll := RemoveAll;
  os_Stat_empty := Stat_empty
}.

(** A small machine: /etc/passwd is a file, /home/u is the home of the
    user and holds the directory d with one file, /srv holds a file that
    its owner may not read. *)
Definition host : machine :=
  mkMachine (Some "/home/u")
    [ (["etc"], Directory true);
      (["etc"; "passwd"], RegularFile true "root:x:0:0");
      (["home"], Directory true);
      (["home"; "u"], Directory true);
      (["home"; "u"; "d"], Directory true);
      (["home"; "u"; "d"; "test.file"], RegularFile true "test");
      (["srv"], Directory true);
      (["srv"; "secret"], RegularFile false "key") ].

End MemFS.

(** ** Vocabulary of the statements *)

(** The call returned, and returned true. *)
Definition answers_true {W : Type} (r : Result (bool * W)) : bool :=
  match r with
  | Ok (true, _) => true
  | _ => false
  end.

(** The last byte of the string is the separator. *)
Fixpoint ends_with_slash (s : string) : bool :=
  match s with
  | EmptyString => false
  | String c EmptyString => Ascii.eqb c "/"%char
  | String _ r => ends_with_slash r
  end.

(** Every character is one of 0-9, a-f. *)
Fixpoint lowercase_hex (s : string) : bool :=
  match s with
  | EmptyString => true
  | String c r =>
      match index 0 (String c EmptyString) hextable with
      | Some _ => lowercase_hex r
      | None => false
      end
  end.


(** [Filesystem{}] as a caller outside the package builds it: no logger. *)
Definition bare : Logging.Filesystem := Logging.mkFilesystem 0 None.

(** A [Filesystem] whose [logger] field was set inside the package. *)
Definition logging : Logging.Filesystem :=
  Logging.mkFilesystem 0 (Some Logging.logrus_New).

(** What a method of src/filesystem.go that starts with
    [BuildAbsolutePathFromHome] gives, by the logger of its receiver: the
    nil dereference of [fs.logger.Info] when there is none, [r] when there
    is one. *)
Definition with_logger {A : Type} (fs : Logging.Filesystem) (r : Result A)
  : Result A :=
  match Logging.Logger_of fs with
  | None => Panic NilDereference
  | Some _ => r
  end.

(** [MemFS.native] on a disk whose directories cannot be read any more:
    opening works, listing answers EIO. *)
Definition faulty_disk : NativeOS MemFS.machine := {|
  homedir_Dir := MemFS.Dir;
  filepath_Join := MemFS.Join;
  sys_Stat := MemFS.Stat;
  sys_Open := MemFS.Open;
  sys_Readdir := fun _ _ _ => ([], Some (SyscallError EIO));
  sys_ReadDir := fun _ _ => ([], Some (SyscallError EIO));
  sys_ReadFile := MemFS.ReadFile;
  sys_WriteFile := MemFS.WriteFile;
  sys_MkdirAll := MemFS.MkdirAll;
  sys_Remove := MemFS.Remove;
  sys_RemoveAll := MemFS.RemoveAll;
  os_Stat_empty := MemFS.Stat_empty
|}.

(** [again n call]: [call] made [S n] times in a row, the last result
    returned. *)
Fixpoint again {W A : Type} (n : nat) (call : Go W A) : Go W A :=
  match n with
  | O => call
  | S k => bind call (fun _ => again k call)
  end.

(** * Properties *)

(** ** The monad and the native calls *)

Ltac run :=
  cbv beta iota zeta delta
    [bind ret raise observe perform os_Stat os_Open ioutil_ReadDir
     ioutil_ReadFile ioutil_WriteFile os_MkdirAll os_Remove os_RemoveAll
     homedir_Expand FileInfo_IsDir File_Readdir go_pair
     ValueReceiver.Logger_Info Logging.Logger_of] in *.

(** Runs a wrapper along the answers of the native calls that the
    hypotheses give. *)
Ltac drive :=
  repeat first
    [ progress cbv beta iota zeta
    | progress cbn [is_nil negb andb orb fst snd]
    | progress change (os_IsNotExist None) with false
    | progress change (is_EOF None) with false
    | match goal with E : _ = _ |- _ => rewrite E end ].

(** The two cases of a receiver: with a logger, without one. *)
Ltac receiver fs :=
  destruct fs as [? [?|]]; unfold with_logger in *; cbn [Logging.Logger_of] in *.

Section Expansion.
Context {W : Type} `{NativeOS W}.

(** A failed expansion hands back the empty path. *)
Lemma expand_error_empty (w : W) (path p : string) (e : error) :
  expand w path = (p, Some e) -> p = EmptyString.
Proof.
  unfold expand. destruct path as [|c rest]; [discriminate|].
  destruct (negb (Ascii.eqb c "~")); [discriminate|].
  destruct rest as [|c1 r].
  - destruct (homedir_Dir w) as [dir [err|]]; intro E; inversion E; reflexivity.
  - destruct (negb (Ascii.eqb c1 "/") && negb (Ascii.eqb c1 "\")).
    + intro E; inversion E; reflexivity.
    + destruct (homedir_Dir w) as [dir [err|]]; intro E; inversion E; reflexivity.
Qed.

Lemma expand_empty (w : W) : expand w EmptyString = (EmptyString, None).
Proof. reflexivity. Qed.

(** A path that does not start with '~' is its own expansion. *)
Lemma expand_plain (w : W) (c : ascii) (rest : string) :
  Ascii.eqb c "~" = false -> expand w (String c rest) = (String c rest, None).
Proof. intro E. unfold expand. rewrite E. reflexivity. Qed.

Lemma append_names_app (files : list FileInfo) (names : list string) :
  append_names names files = (names ++ map fi_Name files)%list.
Proof.
  unfold append_names. revert names.
  induction files as [|f files IH]; intro names; cbn.
  - now rewrite app_nil_r.
  - rewrite IH, <- app_assoc. reflexivity.
Qed.

End Expansion.

(** ** ForceTrailingSlash *)

Lemma nth_byte_last (s : string) (c : ascii) :
  exists b, nth_byte (String c s) (String.length s) = Some b
            /\ byte_is_not_slash b = negb (ends_with_slash (String c s)).
Proof.
  revert c. induction s as [|d s IH]; intro c.
  - exists c. split; reflexivity.
  - destruct (IH d) as [b [E1 E2]]. exists b. split.
    + exact E1.
    + rewrite E2. reflexivity.
Qed.

Lemma string_index_last (c : ascii) (s : string) :
  exists b, string_index (String c s) (len (String c s) - 1) = Ok b
            /\ byte_is_not_slash b = negb (ends_with_slash (String c s)).
Proof.
  destruct (nth_byte_last s c) as [b [E1 E2]]. exists b. split; [|exact E2].
  unfold string_index, len.
  replace (Z.of_nat (String.length (String c s)) - 1)
    with (Z.of_nat (String.length s)) by (cbn [String.length]; lia).
  assert (L : (Z.of_nat (String.length s) <? 0) = false) by (apply Z.ltb_ge; lia).
  assert (G : (Z.of_nat (String.length (String c s)) <=? Z.of_nat (String.length s)) = false)
    by (apply Z.leb_gt; cbn [String.length]; lia).
  rewrite L, G, Nat2Z.id, E1. reflexivity.
Qed.

Lemma append_slash_ends (s : string) : ends_with_slash (s ++ "/") = true.
Proof.
  induction s as [|c s IH]; [reflexivity|].
  cbn [append]. destruct s as [|d s]; [reflexivity|]. exact IH.
Qed.

Lemma append_slash_length (s : string) :
  String.length (s ++ "/") = S (String.length s).
Proof. induction s as [|c s IH]; cbn; [reflexivity | now rewrite IH]. Qed.

(** The pointer-receiver [ForceTrailingSlash] is total: it returns for every
    string, the string itself when it ends with the separator and the string
    with one separator more when it does not; the empty string gives "/". *)
Lemma ForceTrailingSlash_pointer_total (s : string) :
  PointerReceiver.ForceTrailingSlash s
  = Ok (if ends_with_slash s then s else s ++ "/").
Proof.
  unfold PointerReceiver.ForceTrailingSlash.
  destruct s as [|c s]; [reflexivity|].
  assert (N : (len (String c s) =? 0) = false)
    by (apply Z.eqb_neq; unfold len; cbn [String.length]; lia).
  rewrite N.
  destruct (string_index_last c s) as [b [E1 E2]]. rewrite E1, E2.
  destruct (ends_with_slash (String c s)); reflexivity.
Qed.

(** What it returns ends with the separator, and is at most one byte longer. *)
Lemma ForceTrailingSlash_pointer_result (s : string) :
  exists r, PointerReceiver.ForceTrailingSlash s = Ok r
            /\ ends_with_slash r = true
            /\ (ends_with_slash s = true -> r = s)
            /\ (ends_with_slash s = false ->
                r = s ++ "/" /\ String.length r = S (String.length s)).
Proof.
  rewrite ForceTrailingSlash_pointer_total.
  destruct (ends_with_slash s) eqn:E; eexists; split; try reflexivity.
  - repeat split; [exact E | discriminate | discriminate].
  - split; [apply append_slash_ends|].
    split; [discriminate|]. intros _. split; [reflexivity | apply append_slash_length].
Qed.

(** On a string that is not empty the three lineages agree. *)
Lemma ForceTrailingSlash_nonempty (c : ascii) (s : string) :
  ValueReceiver.ForceTrailingSlash (String c s)
  = PointerReceiver.ForceTrailingSlash (String c s)
  /\ PackageLevel.ForceTrailingSlash (String c s)
     = PointerReceiver.ForceTrailingSlash (String c s).
Proof.
  unfold ValueReceiver.ForceTrailingSlash, PackageLevel.ForceTrailingSlash,
    PointerReceiver.ForceTrailingSlash.
  assert (N : (len (String c s) =? 0) = false)
    by (apply Z.eqb_neq; unfold len; cbn [String.length]; lia).
  rewrite N. split; reflexivity.
Qed.

(** C3 (evaluation at the failing input): in src/filesystem.go and in the
    package-level lineage [ForceTrailingSlash] indexes [path[len(path)-1]]
    with no test for the empty string, so on the empty string it stops with
    an index-out-of-range panic; the pointer-receiver lineage tests
    [len(path) == 0] first and returns "/". *)
Theorem ForceTrailingSlash_empty_string :
  ValueReceiver.ForceTrailingSlash EmptyString = Panic IndexOutOfRange
  /\ PackageLevel.ForceTrailingSlash EmptyString = Panic IndexOutOfRange
  /\ PointerReceiver.ForceTrailingSlash EmptyString = Ok "/".
Proof. repeat split. Qed.

(** ** The predicates *)

Section Predicates.
Context {W : Type} `{NativeOS W}.

(** What the shared test [!os.IsNotExist(err) && stat.IsDir()] does with
    each answer of [os.Stat]. *)
Lemma isDirectory_cases (w : W) (p : string) :
  PointerReceiver.isDirectory p w =
  match sys_Stat w p with
  | inr fi => Ok (fi_IsDir fi, w)
  | inl e => if os_IsNotExist (Some e) then Ok (false, w) else Panic NilDereference
  end.
Proof.
  unfold PointerReceiver.isDirectory. run.
  destruct (sys_Stat w p) as [e|fi]; cbv beta iota zeta; [|reflexivity].
  destruct (os_IsNotExist (Some e)); reflexivity.
Qed.

Lemma isFile_cases (w : W) (p : string) :
  PointerReceiver.isFile p w =
  match sys_Stat w p with
  | inr fi => Ok (negb (fi_IsDir fi), w)
  | inl e => if os_IsNotExist (Some e) then Ok (false, w) else Panic NilDereference
  end.
Proof.
  unfold PointerReceiver.isFile. run.
  destruct (sys_Stat w p) as [e|fi]; cbv beta iota zeta; [|reflexivity].
  destruct (os_IsNotExist (Some e)); reflexivity.
Qed.

(** [BuildAbsolutePathFromHome] of src/filesystem.go gets past its logging
    call only on a receiver with a logger. *)
Lemma BuildAbsolutePathFromHome_value_unfold (fs : Logging.Filesystem) (w : W)
  (path : string) :
  ValueReceiver.BuildAbsolutePathFromHome fs path w
  = with_logger fs (Ok (expand w path, w)).
Proof.
  receiver fs; unfold ValueReceiver.BuildAbsolutePathFromHome; run;
    destruct (expand w path) as [p err]; reflexivity.
Qed.

(** The value-receiver and package-level predicates expand, drop the error
    of the expansion, and go on like the private ones. *)
Lemma IsDirectory_value_unfold (fs : Logging.Filesystem) (w : W) (path : string) :
  ValueReceiver.IsDirectory fs path w
  = with_logger fs (PointerReceiver.isDirectory (fst (expand w path)) w).
Proof.
  receiver fs;
    unfold ValueReceiver.IsDirectory, ValueReceiver.BuildAbsolutePathFromHome,
      PointerReceiver.isDirectory; run;
    destruct (expand w path) as [p err]; reflexivity.
Qed.

Lemma IsFile_value_unfold (fs : Logging.Filesystem) (w : W) (path : string) :
  ValueReceiver.IsFile fs path w
  = with_logger fs (PointerReceiver.isFile (fst (expand w path)) w).
Proof.
  receiver fs;
    unfold ValueReceiver.IsFile, ValueReceiver.BuildAbsolutePathFromHome,
      PointerReceiver.isFile; run;
    destruct (expand w path) as [p err]; reflexivity.
Qed.

Lemma IsDirectory_package_unfold (w : W) (path : string) :
  PackageLevel.IsDirectory path w
  = PointerReceiver.isDirectory (fst (expand w path)) w.
Proof.
  unfold PackageLevel.IsDirectory, PackageLevel.BuildAbsolutePathFromHome,
    PointerReceiver.isDirectory. run.
  destruct (expand w path) as [p err]; reflexivity.
Qed.

Lemma IsFile_package_unfold (w : W) (path : string) :
  PackageLevel.IsFile path w = PointerReceiver.isFile (fst (expand w path)) w.
Proof.
  unfold PackageLevel.IsFile, PackageLevel.BuildAbsolutePathFromHome,
    PointerReceiver.isFile. run.
  destruct (expand w path) as [p err]; reflexivity.
Qed.

Lemma IsDirectory_pointer_unfold (w : W) (path : string) :
  PointerReceiver.IsDirectory path w =
  match expand w path with
  | (p, None) => PointerReceiver.isDirectory p w
  | (_, Some _) => Ok (false, w)
  end.
Proof.
  unfold PointerReceiver.IsDirectory, PointerReceiver.BuildAbsolutePathFromHome. run.
  destruct (expand w path) as [p [e|]]; reflexivity.
Qed.

Lemma IsFile_pointer_unfold (w : W) (path : string) :
  PointerReceiver.IsFile path w =
  match expand w path with
  | (p, None) => PointerReceiver.isFile p w
  | (_, Some _) => Ok (false, w)
  end.
Proof.
  unfold PointerReceiver.IsFile, PointerReceiver.BuildAbsolutePathFromHome. run.
  destruct (expand w path) as [p [e|]]; reflexivity.
Qed.

Lemma private_predicates_exclusive (w : W) (p : string) :
  answers_true (PointerReceiver.isDirectory p w)
  && answers_true (PointerReceiver.isFile p w) = false.
Proof.
  rewrite isDirectory_cases, isFile_cases.
  destruct (sys_Stat w p) as [e|fi].
  - destruct (os_IsNotExist (Some e)); reflexivity.
  - cbn. destruct (fi_IsDir fi); reflexivity.
Qed.

End Predicates.

(** C9: on one state of the machine and one path, [IsDirectory] and
    [IsFile] never both return true; in each of the three lineages (in
    src/filesystem.go on every receiver). *)
Theorem IsDirectory_IsFile_exclusive {W : Type} `{NativeOS W}
  (fs : Logging.Filesystem) (w : W) (path : string) :
  answers_true (ValueReceiver.IsDirectory fs path w)
  && answers_true (ValueReceiver.IsFile fs path w) = false
  /\ answers_true (PointerReceiver.IsDirectory path w)
     && answers_true (PointerReceiver.IsFile path w) = false
  /\ answers_true (PackageLevel.IsDirectory path w)
     && answers_true (PackageLevel.IsFile path w) = false.
Proof.
  rewrite IsDirectory_value_unfold, IsFile_value_unfold,
    IsDirectory_package_unfold, IsFile_package_unfold,
    IsDirectory_pointer_unfold, IsFile_pointer_unfold.
  repeat split; try apply private_predicates_exclusive.
  - receiver fs; [apply private_predicates_exclusive | reflexivity].
  - destruct (expand w path) as [p [e|]]; [reflexivity|].
    apply private_predicates_exclusive.
Qed.

Section StatFailure.
Context {W : Type} `{NativeOS W}.

(** What [CheckExists] answers, by the expansion and by [os.Stat]: false
    when the expansion fails or [os.Stat] reports a missing entry, true in
    every other case, a failed [os.Stat] included. *)
Lemma CheckExists_pointer_cases (w : W) (path : string) :
  PointerReceiver.CheckExists path w =
  match expand w path with
  | (p, None) =>
      match sys_Stat w p with
      | inr _ => Ok (true, w)
      | inl e => Ok (negb (os_IsNotExist (Some e)), w)
      end
  | (_, Some _) => Ok (false, w)
  end.
Proof.
  unfold PointerReceiver.CheckExists, PointerReceiver.BuildAbsolutePathFromHome. run.
  destruct (expand w path) as [p [err|]]; cbv beta iota zeta; [reflexivity|].
  cbn [is_nil].
  destruct (sys_Stat w p) as [e|fi]; cbv beta iota zeta; [|reflexivity].
  destruct (os_IsNotExist (Some e)); reflexivity.
Qed.

Lemma CheckExists_value_cases (fs : Logging.Filesystem) (w : W) (path : string) :
  ValueReceiver.CheckExists fs path w =
  with_logger fs
    match expand w path with
    | (p, None) =>
        match sys_Stat w p with
        | inr _ => Ok ((true, None), w)
        | inl e => Ok ((negb (os_IsNotExist (Some e)), None), w)
        end
    | (_, Some err) => Ok ((false, Some err), w)
    end.
Proof.
  receiver fs;
    unfold ValueReceiver.CheckExists, ValueReceiver.BuildAbsolutePathFromHome; run;
    destruct (expand w path) as [p [err|]]; cbv beta iota zeta; try reflexivity.
  cbn [is_nil].
  destruct (sys_Stat w p) as [e|fi]; cbv beta iota zeta; [|reflexivity].
  destruct (os_IsNotExist (Some e)); reflexivity.
Qed.

Lemma CheckExists_package_cases (w : W) (path : string) :
  PackageLevel.CheckExists path w =
  match sys_Stat w (fst (expand w path)) with
  | inr _ => Ok (true, w)
  | inl e => Ok (negb (os_IsNotExist (Some e)), w)
  end.
Proof.
  unfold PackageLevel.CheckExists, PackageLevel.BuildAbsolutePathFromHome. run.
  destruct (expand w path) as [p err]; cbn [fst].
  destruct (sys_Stat w p) as [e|fi]; reflexivity.
Qed.

(** [CheckExists] itself never panics and never touches the machine. *)
Lemma CheckExists_pointer_returns (w : W) (path : string) :
  exists b, PointerReceiver.CheckExists path w = Ok (b, w).
Proof.
  rewrite CheckExists_pointer_cases.
  destruct (expand w path) as [p [err|]]; [eexists; reflexivity|].
  destruct (sys_Stat w p); eexists; reflexivity.
Qed.

(** [IsEmptyDirectory] on a directory that opens but cannot be listed: the
    value-receiver (on a receiver with a logger) and package-level lineages
    run into their [panic(err)], the pointer-receiver lineage answers
    false. *)
Lemma IsEmptyDirectory_read_error (fs : Logging.Filesystem) (w : W)
  (path p : string) (fi : FileInfo) (f : File) (cs : list FileInfo) (e : error) :
  expand w path = (p, None) -> expand w p = (p, None) ->
  sys_Stat w p = inr fi -> fi_IsDir fi = true ->
  sys_Open w p = inr f -> sys_Readdir w f 1 = (cs, Some e) ->
  is_EOF (Some e) = false ->
  ValueReceiver.IsEmptyDirectory fs path w
  = with_logger fs (Panic (PanicValue (Some e)))
  /\ PackageLevel.IsEmptyDirectory path w = Panic (PanicValue (Some e))
  /\ PointerReceiver.IsEmptyDirectory path w = Ok (false, w).
Proof.
  intros E1 E2 S D O R NE.
  receiver fs;
  unfold ValueReceiver.IsEmptyDirectory, PackageLevel.IsEmptyDirectory,
    PointerReceiver.IsEmptyDirectory, ValueReceiver.IsDirectory,
    PackageLevel.IsDirectory, PointerReceiver.isDirectory,
    ValueReceiver.BuildAbsolutePathFromHome, PackageLevel.BuildAbsolutePathFromHome,
    PointerReceiver.BuildAbsolutePathFromHome;
  run; drive; repeat split.
Qed.

End StatFailure.

(** C2 (evaluation at the failing input): when [os.Stat] fails for another
    reason than a missing entry, [!os.IsNotExist(err)] holds and
    [stat.IsDir()] is called on the nil [FileInfo]: [IsDirectory], [IsFile]
    and [IsEmptyDirectory] stop with a nil dereference instead of returning
    false, in each of the three lineages.  (In src/filesystem.go on every
    receiver: one without a logger has met the same panic at its logging
    call already.) *)
Theorem predicates_panic_on_stat_failure {W : Type} `{NativeOS W}
  (fs : Logging.Filesystem) (w : W) (path p : string) (e : error) :
  expand w path = (p, None) -> expand w p = (p, None) ->
  sys_Stat w p = inl e -> os_IsNotExist (Some e) = false ->
  ValueReceiver.IsDirectory fs path w = Panic NilDereference
  /\ ValueReceiver.IsFile fs path w = Panic NilDereference
  /\ ValueReceiver.IsEmptyDirectory fs path w = Panic NilDereference
  /\ PointerReceiver.IsDirectory path w = Panic NilDereference
  /\ PointerReceiver.IsFile path w = Panic NilDereference
  /\ PointerReceiver.IsEmptyDirectory path w = Panic NilDereference
  /\ PackageLevel.IsDirectory path w = Panic NilDereference
  /\ PackageLevel.IsFile path w = Panic NilDereference
  /\ PackageLevel.IsEmptyDirectory path w = Panic NilDereference.
Proof.
  intros E1 E2 S NE.
  assert (D : PointerReceiver.isDirectory p w = Panic NilDereference)
    by (rewrite isDirectory_cases, S, NE; reflexivity).
  assert (F : PointerReceiver.isFile p w = Panic NilDereference)
    by (rewrite isFile_cases, S, NE; reflexivity).
  assert (L : forall A (r : Result A), r = Panic NilDereference ->
                                       with_logger fs r = Panic NilDereference).
  { intros A r R. rewrite R. unfold with_logger.
    destruct (Logging.Logger_of fs); reflexivity. }
  assert (DV : ValueReceiver.IsDirectory fs p w = Panic NilDereference)
    by (rewrite IsDirectory_value_unfold, E2; apply L; exact D).
  assert (DP : PackageLevel.IsDirectory p w = Panic NilDereference)
    by (rewrite IsDirectory_package_unfold, E2; exact D).
  rewrite IsDirectory_value_unfold, IsFile_value_unfold,
    IsDirectory_package_unfold, IsFile_package_unfold,
    IsDirectory_pointer_unfold, IsFile_pointer_unfold, E1.
  cbn [fst].
  repeat split; try assumption; try (apply L; assumption).
  - unfold ValueReceiver.IsEmptyDirectory.
    unfold bind at 1. rewrite BuildAbsolutePathFromHome_value_unfold, E1.
    clear L. receiver fs; [|reflexivity].
    unfold bind. rewrite DV. reflexivity.
  - unfold PointerReceiver.IsEmptyDirectory, PointerReceiver.BuildAbsolutePathFromHome.
    run. rewrite E1. cbv beta iota zeta. cbn [is_nil]. rewrite D. reflexivity.
  - unfold PackageLevel.IsEmptyDirectory, PackageLevel.BuildAbsolutePathFromHome.
    run. rewrite E1. cbv beta iota zeta. rewrite DP. reflexivity.
Qed.

(** On the machine [MemFS.host], /etc/passwd is a file: a path below it
    cannot be looked up (ENOTDIR), and the predicates panic. *)
Lemma predicates_panic_on_stat_failure_witness :
  MemFS.Stat MemFS.host "/etc/passwd/x" = inl (SyscallError ENOTDIR)
  /\ ValueReceiver.IsDirectory logging "/etc/passwd/x" MemFS.host
     = Panic NilDereference
  /\ ValueReceiver.IsDirectory bare "/etc/passwd/x" MemFS.host
     = Panic NilDereference
  /\ PointerReceiver.IsFile "/etc/passwd/x" MemFS.host = Panic NilDereference
  /\ PointerReceiver.IsEmptyDirectory "/etc/passwd/x" MemFS.host
     = Panic NilDereference.
Proof.
  pose proof (predicates_panic_on_stat_failure logging MemFS.host
                "/etc/passwd/x" "/etc/passwd/x" (SyscallError ENOTDIR)
                eq_refl eq_refl eq_refl eq_refl) as P.
  pose proof (predicates_panic_on_stat_failure bare MemFS.host
                "/etc/passwd/x" "/etc/passwd/x" (SyscallError ENOTDIR)
                eq_refl eq_refl eq_refl eq_refl) as Q.
  split; [reflexivity|].
  split; [apply P|]. split; [apply Q|]. split; apply P.
Defined.

(** The explicit [panic(err)], on [faulty_disk]. *)
Example IsEmptyDirectory_panics_on_faulty_disk :
  @ValueReceiver.IsEmptyDirectory _ faulty_disk logging "/srv" MemFS.host
  = Panic (PanicValue (Some (SyscallError EIO)))
  /\ @PackageLevel.IsEmptyDirectory _ faulty_disk "/srv" MemFS.host
     = Panic (PanicValue (Some (SyscallError EIO)))
  /\ @PointerReceiver.IsEmptyDirectory _ faulty_disk "/srv" MemFS.host
     = Ok (false, MemFS.host).
Proof.
  pose proof (@IsEmptyDirectory_read_error _ faulty_disk logging MemFS.host
                "/srv" "/srv"
                (mkFileInfo "srv" true) (mkFile "/srv") [] (SyscallError EIO)
                eq_refl eq_refl eq_refl eq_refl eq_refl eq_refl eq_refl) as P.
  split; [apply P|]. split; apply P.
Qed.

(** C4 (evaluation at the failing input): when [os.Stat] fails for another
    reason than a missing entry, [CheckExists] answers true, although the
    failure says nothing of an entry at the path: in the pointer-receiver
    and the package-level lineage, and in src/filesystem.go on a receiver
    with a logger (on one without, the call has panicked at the logging call
    before [os.Stat]). *)
Theorem CheckExists_true_on_stat_failure {W : Type} `{NativeOS W}
  (fs : Logging.Filesystem) (w : W) (path p : string) (e : error) :
  expand w path = (p, None) ->
  sys_Stat w p = inl e -> os_IsNotExist (Some e) = false ->
  PointerReceiver.CheckExists path w = Ok (true, w)
  /\ PackageLevel.CheckExists path w = Ok (true, w)
  /\ ValueReceiver.CheckExists fs path w = with_logger fs (Ok ((true, None), w)).
Proof.
  intros E S NE.
  rewrite CheckExists_value_cases, CheckExists_pointer_cases,
    CheckExists_package_cases, E.
  cbn [fst]. rewrite S, NE. repeat split.
Qed.

(** On [MemFS.host] nothing can exist below the file /etc/passwd, and
    [CheckExists] says that it does. *)
Lemma CheckExists_true_on_stat_failure_witness :
  MemFS.locate MemFS.host "/etc/passwd/x" = inl (SyscallError ENOTDIR)
  /\ PointerReceiver.CheckExists "/etc/passwd/x" MemFS.host = Ok (true, MemFS.host)
  /\ PackageLevel.CheckExists "/etc/passwd/x" MemFS.host = Ok (true, MemFS.host)
  /\ ValueReceiver.CheckExists logging "/etc/passwd/x" MemFS.host
     = Ok ((true, None), MemFS.host)
  /\ ValueReceiver.CheckExists bare "/etc/passwd/x" MemFS.host
     = Panic NilDereference.
Proof.
  pose proof (CheckExists_true_on_stat_failure logging MemFS.host
                "/etc/passwd/x" "/etc/passwd/x" (SyscallError ENOTDIR)
                eq_refl eq_refl eq_refl) as [P [K V]].
  pose proof (CheckExists_true_on_stat_failure bare MemFS.host
                "/etc/passwd/x" "/etc/passwd/x" (SyscallError ENOTDIR)
                eq_refl eq_refl eq_refl) as [_ [_ B]].
  repeat split; assumption.
Defined.

(** ** CreateDirectory *)

Section Creation.
Context {W : Type} `{NativeOS W}.

(** The pointer-receiver [CreateDirectory] after a successful expansion:
    nothing is done to a directory that is there, and [os.MkdirAll] is
    called on the expanded path otherwise, its error handed back. *)
Lemma CreateDirectory_pointer_cases (w : W) (path p : string) :
  expand w path = (p, None) ->
  PointerReceiver.CreateDirectory path w =
  match PointerReceiver.isDirectory p w with
  | Ok (true, _) => Ok ((true, None), w)
  | Ok (false, _) =>
      let (err, w') := sys_MkdirAll p 493 w in Ok ((is_nil err, err), w')
  | Panic q => Panic q
  end.
Proof.
  intro E. rewrite isDirectory_cases.
  unfold PointerReceiver.CreateDirectory, PointerReceiver.isDirectory,
    PointerReceiver.BuildAbsolutePathFromHome.
  run. drive.
  destruct (sys_Stat w p) as [e|fi]; cbv beta iota zeta.
  - destruct (os_IsNotExist (Some e)); cbn [negb]; cbv beta iota zeta; [|reflexivity].
    destruct (sys_MkdirAll p 493 w) as [err w']. reflexivity.
  - change (os_IsNotExist None) with false. cbn [negb].
    destruct (fi_IsDir fi); cbn [negb]; cbv beta iota zeta; [reflexivity|].
    destruct (sys_MkdirAll p 493 w) as [err w']. reflexivity.
Qed.

End Creation.

(** C1 (evaluation at the failing inputs): in src/filesystem.go
    [CreateDirectory] makes nothing for a path whose expansion succeeds.  On
    a receiver without a logger it panics at the logging call of
    [BuildAbsolutePathFromHome].  On a receiver with a logger the test after
    the expansion is [err != nil], so it returns (true, nil) at once: it
    does not look at the path, does not call [os.MkdirAll], and leaves the
    machine as it was. *)
Theorem CreateDirectory_value_skips_creation {W : Type} `{NativeOS W}
  (fs : Logging.Filesystem) (w : W) (path p : string) :
  expand w path = (p, None) ->
  ValueReceiver.CreateDirectory fs path w = with_logger fs (Ok ((true, None), w)).
Proof.
  intro E.
  receiver fs;
    unfold ValueReceiver.CreateDirectory, ValueReceiver.BuildAbsolutePathFromHome;
    run; drive; reflexivity.
Qed.

(** On [MemFS.host], /srv/new is missing before the call; the call panics
    on the receiver that a caller builds, and reports success with /srv/new
    still missing on a receiver with a logger. *)
Lemma CreateDirectory_value_skips_creation_witness :
  PointerReceiver.CheckExists "/srv/new" MemFS.host = Ok (false, MemFS.host)
  /\ ValueReceiver.CreateDirectory bare "/srv/new" MemFS.host
     = Panic NilDereference
  /\ ValueReceiver.CreateDirectory logging "/srv/new" MemFS.host
     = Ok ((true, None), MemFS.host).
Proof.
  split; [reflexivity|]. split.
  - exact (CreateDirectory_value_skips_creation bare MemFS.host
             "/srv/new" "/srv/new" eq_refl).
  - exact (CreateDirectory_value_skips_creation logging MemFS.host
             "/srv/new" "/srv/new" eq_refl).
Defined.

(** The pointer-receiver lineage makes the whole chain in one call. *)
Example CreateDirectory_pointer_makes_chain :
  exists m,
    PointerReceiver.CreateDirectory "/srv/a/b/c/d" MemFS.host = Ok ((true, None), m)
    /\ PointerReceiver.IsDirectory "/srv/a" m = Ok (true, m)
    /\ PointerReceiver.IsDirectory "/srv/a/b" m = Ok (true, m)
    /\ PointerReceiver.IsDirectory "/srv/a/b/c" m = Ok (true, m)
    /\ PointerReceiver.IsDirectory "/srv/a/b/c/d" m = Ok (true, m)
    /\ PointerReceiver.CreateDirectory "/srv/a/b/c/d" m = Ok ((true, None), m).
Proof. eexists. split; [vm_compute; reflexivity|]. repeat split. Qed.

(** Below a file [os.Stat] fails with ENOTDIR and the call panics in
    [isDirectory]; on the file itself [os.MkdirAll] fails and its error is
    returned beside false. *)
Example CreateDirectory_pointer_blocked :
  PointerReceiver.CreateDirectory "/srv/secret/sub" MemFS.host
  = Panic NilDereference
  /\ PointerReceiver.CreateDirectory "/etc/passwd" MemFS.host
     = Ok ((false, Some (SyscallError ENOTDIR)), MemFS.host).
Proof. split; reflexivity. Qed.

(** ** LoadFileIfExists *)

(** C5 (evaluation at the failing inputs): when the path is a file and
    [ioutil.ReadFile] fails, [LoadFileIfExists] returns the empty string
    with a nil error: the error of the read is held by the [err] declared
    inside the block, and the [err] returned is the outer one.  So in the
    pointer-receiver lineage.  So too in src/filesystem.go on a receiver
    with a logger, when a second expansion (the one of [IsFile]) leaves the
    expanded path as it is; on a receiver without a logger the call panics
    at the logging call.  [GetFileSHA256Checksum], which assigns with [=],
    returns the error. *)
Theorem LoadFileIfExists_drops_read_error {W : Type} `{NativeOS W}
  (fs : Logging.Filesystem) (w : W) (path p : string) (fi : FileInfo)
  (c : bytes) (e : error) :
  expand w path = (p, None) ->
  sys_Stat w p = inr fi -> fi_IsDir fi = false ->
  sys_ReadFile w p = (c, Some e) ->
  PointerReceiver.LoadFileIfExists path w = Ok ((EmptyString, None), w)
  /\ PointerReceiver.GetFileSHA256Checksum path w = Ok ((EmptyString, Some e), w)
  /\ (expand w p = (p, None) ->
      ValueReceiver.LoadFileIfExists fs path w
      = with_logger fs (Ok ((EmptyString, None), w))
      /\ ValueReceiver.GetFileSHA256Checksum fs path w
         = with_logger fs (Ok ((EmptyString, Some e), w))).
Proof.
  intros E1 S D R.
  receiver fs;
    unfold ValueReceiver.LoadFileIfExists, PointerReceiver.LoadFileIfExists,
      ValueReceiver.GetFileSHA256Checksum, PointerReceiver.GetFileSHA256Checksum,
      ValueReceiver.IsFile, PointerReceiver.isFile,
      ValueReceiver.BuildAbsolutePathFromHome,
      PointerReceiver.BuildAbsolutePathFromHome;
    run; drive; repeat split; intros; drive; repeat split.
Qed.

(** On [MemFS.host], /srv/secret is a file that may not be read. *)
Lemma LoadFileIfExists_drops_read_error_witness :
  PointerReceiver.IsFile "/srv/secret" MemFS.host = Ok (true, MemFS.host)
  /\ MemFS.ReadFile MemFS.host "/srv/secret"
     = (EmptyString, Some (SyscallError EACCES))
  /\ PointerReceiver.LoadFileIfExists "/srv/secret" MemFS.host
     = Ok ((EmptyString, None), MemFS.host)
  /\ PointerReceiver.GetFileSHA256Checksum "/srv/secret" MemFS.host
     = Ok ((EmptyString, Some (SyscallError EACCES)), MemFS.host)
  /\ ValueReceiver.LoadFileIfExists logging "/srv/secret" MemFS.host
     = Ok ((EmptyString, None), MemFS.host)
  /\ ValueReceiver.LoadFileIfExists bare "/srv/secret" MemFS.host
     = Panic NilDereference.
Proof.
  pose proof (LoadFileIfExists_drops_read_error logging MemFS.host
                "/srv/secret" "/srv/secret" (mkFileInfo "secret" false)
                EmptyString (SyscallError EACCES)
                eq_refl eq_refl eq_refl eq_refl) as [P [C V]].
  pose proof (LoadFileIfExists_drops_read_error bare MemFS.host
                "/srv/secret" "/srv/secret" (mkFileInfo "secret" false)
                EmptyString (SyscallError EACCES)
                eq_refl eq_refl eq_refl eq_refl) as [_ [_ B]].
  split; [reflexivity|]. split; [reflexivity|].
  split; [exact P|]. split; [exact C|].
  split; [exact (proj1 (V eq_refl)) | exact (proj1 (B eq_refl))].
Defined.

(** ** RemoveDirectory *)

Section Removal.
Context {W : Type} `{NativeOS W}.

(** The pointer-receiver [RemoveDirectory] looks at the expanded path and
    removes the expanded path. *)
Lemma RemoveDirectory_pointer_expands (w : W) (path p : string) (recursive : bool) :
  expand w path = (p, None) ->
  PointerReceiver.isDirectory p w = Ok (true, w) ->
  PointerReceiver.RemoveDirectory path recursive w =
  let (err, w') := (if recursive then sys_RemoveAll p w else sys_Remove p w) in
  Ok ((is_nil err, err), w').
Proof.
  intros E D.
  unfold PointerReceiver.RemoveDirectory, PointerReceiver.BuildAbsolutePathFromHome.
  run. drive.
  destruct recursive;
    [destruct (sys_RemoveAll p w) as [[e|] w'] | destruct (sys_Remove p w) as [[e|] w']];
    reflexivity.
Qed.

End Removal.

(** C7 (evaluation at the failing inputs): in src/filesystem.go
    [RemoveDirectory] does not expand its path.  For a path that expands to
    a directory: on a receiver without a logger the call panics at the
    logging call inside [IsDirectory]; on a receiver with a logger
    [IsDirectory] expands the path on its own and answers true, and the
    removal is then called on the path as it was given. *)
Theorem RemoveDirectory_value_removes_raw_path {W : Type} `{NativeOS W}
  (fs : Logging.Filesystem) (w : W) (path p : string) (fi : FileInfo)
  (recursive : bool) :
  expand w path = (p, None) -> sys_Stat w p = inr fi -> fi_IsDir fi = true ->
  ValueReceiver.RemoveDirectory fs path recursive w =
  with_logger fs
    (let (err, w') :=
       (if recursive then sys_RemoveAll path w else sys_Remove path w) in
     Ok ((is_nil err, err), w')).
Proof.
  intros E S D.
  receiver fs;
    unfold ValueReceiver.RemoveDirectory, ValueReceiver.IsDirectory,
      ValueReceiver.BuildAbsolutePathFromHome;
    run; drive; try reflexivity.
  destruct recursive;
    [destruct (sys_RemoveAll path w) as [[e|] w'] | destruct (sys_Remove path w) as [[e|] w']];
    reflexivity.
Qed.

(** On [MemFS.host] the home of the user holds the directory d.  Asked to
    remove "~/d", src/filesystem.go panics on the receiver that a caller
    builds.  On a receiver with a logger it reports success with the
    children and d is still there, and without the children it reports that
    "~/d" is missing.  The pointer-receiver lineage removes /home/u/d. *)
Lemma RemoveDirectory_value_removes_raw_path_witness :
  PointerReceiver.IsDirectory "~/d" MemFS.host = Ok (true, MemFS.host)
  /\ ValueReceiver.RemoveDirectory bare "~/d" true MemFS.host
     = Panic NilDereference
  /\ ValueReceiver.RemoveDirectory logging "~/d" true MemFS.host
     = Ok ((true, None), MemFS.host)
  /\ ValueReceiver.RemoveDirectory logging "~/d" false MemFS.host
     = Ok ((false, Some (SyscallError ENOENT)), MemFS.host)
  /\ exists m,
       PointerReceiver.RemoveDirectory "~/d" true MemFS.host = Ok ((true, None), m)
       /\ PointerReceiver.CheckExists "~/d" m = Ok (false, m).
Proof.
  split; [reflexivity|].
  split; [exact (@RemoveDirectory_value_removes_raw_path _ MemFS.native bare
                   MemFS.host "~/d" "/home/u/d" (mkFileInfo "d" true) true
                   eq_refl eq_refl eq_refl)|].
  split; [exact (@RemoveDirectory_value_removes_raw_path _ MemFS.native logging
                   MemFS.host "~/d" "/home/u/d" (mkFileInfo "d" true) true
                   eq_refl eq_refl eq_refl)|].
  split; [exact (@RemoveDirectory_value_removes_raw_path _ MemFS.native logging
                   MemFS.host "~/d" "/home/u/d" (mkFileInfo "d" true) false
                   eq_refl eq_refl eq_refl)|].
  eexists. split; [vm_compute; reflexivity | reflexivity].
Defined.

(** ** GetDirectoryContents *)

Section Listing.
Context {W : Type} `{NativeOS W}.

(** src/filesystem.go lists the path as it was given. *)
Lemma GetDirectoryContents_value_cases (w : W) (path : string) :
  ValueReceiver.GetDirectoryContents path w =
  match sys_ReadDir w path with
  | (files, None) => Ok ((map fi_Name files, None), w)
  | (_, Some e) => Ok (([], Some e), w)
  end.
Proof.
  unfold ValueReceiver.GetDirectoryContents. run.
  destruct (sys_ReadDir w path) as [files [e|]]; cbn [is_nil]; [reflexivity|].
  rewrite append_names_app. reflexivity.
Qed.

(** The pointer-receiver lineage lists the expanded path: the names of the
    entries that [ioutil.ReadDir] gives, and its error with no name at all. *)
Lemma GetDirectoryContents_pointer_cases (w : W) (path : string) :
  PointerReceiver.GetDirectoryContents path w =
  match sys_ReadDir w (fst (expand w path)) with
  | (files, None) => Ok ((map fi_Name files, None), w)
  | (_, Some e) => Ok (([], Some e), w)
  end.
Proof.
  unfold PointerReceiver.GetDirectoryContents, PointerReceiver.BuildAbsolutePathFromHome.
  run. destruct (expand w path) as [p err0]. cbn [fst].
  destruct (sys_ReadDir w p) as [files [e|]]; cbn [is_nil]; [reflexivity|].
  rewrite append_names_app. reflexivity.
Qed.

End Listing.

(** C8 (evaluation at the failing input): src/filesystem.go hands the path
    to [ioutil.ReadDir] without expanding it.  On [MemFS.host], "~/d" is
    looked up as it is written and is missing; the pointer-receiver lineage
    lists /home/u/d. *)
Theorem GetDirectoryContents_value_skips_expansion :
  ValueReceiver.GetDirectoryContents "~/d" MemFS.host
  = Ok (([], Some (SyscallError ENOENT)), MemFS.host)
  /\ PointerReceiver.GetDirectoryContents "~/d" MemFS.host
     = Ok ((["test.file"], None), MemFS.host)
  /\ PointerReceiver.IsDirectory "~/d" MemFS.host = Ok (true, MemFS.host).
Proof. repeat split. Qed.

(** ** GetFileSHA256Checksum *)








Example lowercase_hex_examples :
  lowercase_hex "09af" = true /\ lowercase_hex "0A" = false
  /\ lowercase_hex "g" = false.
Proof. repeat split. Qed.

(** The test vectors of FIPS 180-4 for the empty message, for "abc" and for
    a message of two blocks. *)
Example Sum256_test_vectors :
  checksum_string EmptyString
  = "e3b0c44298fc1c149afbf4c8996fb92427ae41e4649b934ca495991b7852b855"
  /\ checksum_string "abc"
     = "ba7816bf8f01cfea414140de5dae2223b00361a396177a9cb410ff61f20015ad"
  /\ checksum_string "abcdbcdecdefdefgefghfghighijhijkijkljklmklmnlmnomnopnopq"
     = "248d6a61d20638b8e5c026930c3e6039a33ce45964ff2167f6ecedd419db06c1".
Proof. vm_compute. repeat split. Qed.



Section Checksum.
Context {W : Type} `{NativeOS W}.



End Checksum.



(** ** Results next to an error *)

Section ZeroValues.
Context {W : Type} `{NativeOS W}.

Ltac conclude :=
  cbn [is_nil negb]; cbv beta iota zeta; intros; try discriminate;
  match goal with
  | E : Ok _ = Ok _ |- _ => inversion E; subst; try reflexivity; try discriminate
  end.

(** After a failed expansion, [IsDirectory] of the path handed back (the
    empty one) is false. *)
Lemma IsDirectory_value_empty (fs : Logging.Filesystem) (w : W) :
  ValueReceiver.IsDirectory fs EmptyString w = with_logger fs (Ok (false, w)).
Proof.
  rewrite IsDirectory_value_unfold, isDirectory_cases.
  cbn [expand fst]. rewrite os_Stat_empty. reflexivity.
Qed.

Lemma CreateDirectory_value_zero (fs : Logging.Filesystem) (w w' : W)
  (path : string) (v : bool) (e : error) :
  ValueReceiver.CreateDirectory fs path w = Ok ((v, Some e), w') -> v = false.
Proof.
  unfold ValueReceiver.CreateDirectory. unfold bind at 1.
  rewrite BuildAbsolutePathFromHome_value_unfold.
  pose proof (IsDirectory_value_empty fs w) as D0.
  receiver fs; [|discriminate].
  destruct (expand w path) as [p [err|]] eqn:E; cbn [is_nil negb]; cbv beta iota zeta.
  - apply expand_error_empty in E. subst p.
    unfold bind at 1. rewrite D0. run.
    destruct (sys_MkdirAll EmptyString 493 w) as [[e'|] w'']; conclude.
  - unfold ret. conclude.
Qed.

Lemma CreateDirectory_pointer_zero (w w' : W) (path : string) (v : bool) (e : error) :
  PointerReceiver.CreateDirectory path w = Ok ((v, Some e), w') -> v = false.
Proof.
  unfold PointerReceiver.CreateDirectory, PointerReceiver.BuildAbsolutePathFromHome.
  run. destruct (expand w path) as [p [err|]]; cbn [is_nil]; cbv beta iota zeta;
    [conclude|].
  destruct (PointerReceiver.isDirectory p w) as [[[|] w1]|q]; cbn [negb];
    cbv beta iota zeta; try conclude.
  destruct (sys_MkdirAll p 493 w1) as [[e'|] w'']; conclude.
Qed.

Lemma RemoveDirectory_value_zero (fs : Logging.Filesystem) (w w' : W)
  (path : string) (recursive v : bool) (e : error) :
  ValueReceiver.RemoveDirectory fs path recursive w = Ok ((v, Some e), w') ->
  v = false.
Proof.
  unfold ValueReceiver.RemoveDirectory. run.
  destruct (ValueReceiver.IsDirectory fs path w) as [[[|] w1]|q]; cbv beta iota zeta;
    try conclude.
  destruct recursive;
    [destruct (sys_RemoveAll path w1) as [[e'|] w''] | destruct (sys_Remove path w1) as [[e'|] w'']];
    conclude.
Qed.

Lemma RemoveDirectory_pointer_zero (w w' : W) (path : string) (recursive v : bool)
  (e : error) :
  PointerReceiver.RemoveDirectory path recursive w = Ok ((v, Some e), w') -> v = false.
Proof.
  unfold PointerReceiver.RemoveDirectory, PointerReceiver.BuildAbsolutePathFromHome.
  run. destruct (expand w path) as [p [err|]]; cbn [is_nil]; cbv beta iota zeta;
    [conclude|].
  destruct (PointerReceiver.isDirectory p w) as [[[|] w1]|q]; cbv beta iota zeta;
    try conclude.
  destruct recursive;
    [destruct (sys_RemoveAll p w1) as [[e'|] w''] | destruct (sys_Remove p w1) as [[e'|] w'']];
    conclude.
Qed.

Lemma LoadFileIfExists_value_zero (fs : Logging.Filesystem) (w w' : W)
  (path v : string) (e : error) :
  ValueReceiver.LoadFileIfExists fs path w = Ok ((v, Some e), w') -> v = EmptyString.
Proof.
  unfold ValueReceiver.LoadFileIfExists. unfold bind at 1.
  rewrite BuildAbsolutePathFromHome_value_unfold.
  unfold with_logger. destruct (Logging.Logger_of fs); [|discriminate].
  run. destruct (expand w path) as [p [err|]]; cbn [is_nil]; cbv beta iota zeta;
    [conclude|].
  destruct (ValueReceiver.IsFile fs p w) as [[[|] w1]|q]; cbv beta iota zeta;
    try conclude.
  destruct (sys_ReadFile w1 p) as [c [e'|]]; conclude.
Qed.

Lemma LoadFileIfExists_pointer_zero (w w' : W) (path v : string) (e : error) :
  PointerReceiver.LoadFileIfExists path w = Ok ((v, Some e), w') -> v = EmptyString.
Proof.
  unfold PointerReceiver.LoadFileIfExists, PointerReceiver.BuildAbsolutePathFromHome.
  run. destruct (expand w path) as [p [err|]]; cbn [is_nil]; cbv beta iota zeta;
    [conclude|].
  destruct (PointerReceiver.isFile p w) as [[[|] w1]|q]; cbv beta iota zeta;
    try conclude.
  destruct (sys_ReadFile w1 p) as [c [e'|]]; conclude.
Qed.

Lemma GetFileSHA256Checksum_value_zero (fs : Logging.Filesystem) (w w' : W)
  (path v : string) (e : error) :
  ValueReceiver.GetFileSHA256Checksum fs path w = Ok ((v, Some e), w') ->
  v = EmptyString.
Proof.
  unfold ValueReceiver.GetFileSHA256Checksum. unfold bind at 1.
  rewrite BuildAbsolutePathFromHome_value_unfold.
  unfold with_logger. destruct (Logging.Logger_of fs); [|discriminate].
  run. destruct (expand w path) as [p [err|]]; cbn [is_nil]; cbv beta iota zeta;
    [conclude|].
  destruct (ValueReceiver.IsFile fs p w) as [[[|] w1]|q]; cbv beta iota zeta;
    try conclude.
  destruct (sys_ReadFile w1 p) as [c [e'|]]; conclude.
Qed.

Lemma GetFileSHA256Checksum_pointer_zero (w w' : W) (path v : string) (e : error) :
  PointerReceiver.GetFileSHA256Checksum path w = Ok ((v, Some e), w') -> v = EmptyString.
Proof.
  unfold PointerReceiver.GetFileSHA256Checksum, PointerReceiver.BuildAbsolutePathFromHome.
  run. destruct (expand w path) as [p [err|]]; cbn [is_nil]; cbv beta iota zeta;
    [conclude|].
  destruct (PointerReceiver.isFile p w) as [[[|] w1]|q]; cbv beta iota zeta;
    try conclude.
  destruct (sys_ReadFile w1 p) as [c [e'|]]; conclude.
Qed.

Lemma GetDirectoryContents_value_zero (w w' : W) (path : string) (v : list string)
  (e : error) :
  ValueReceiver.GetDirectoryContents path w = Ok ((v, Some e), w') -> v = [].
Proof.
  rewrite GetDirectoryContents_value_cases.
  destruct (sys_ReadDir w path) as [files [e'|]]; conclude.
Qed.

Lemma GetDirectoryContents_pointer_zero (w w' : W) (path : string) (v : list string)
  (e : error) :
  PointerReceiver.GetDirectoryContents path w = Ok ((v, Some e), w') -> v = [].
Proof.
  rewrite GetDirectoryContents_pointer_cases.
  destruct (sys_ReadDir w (fst (expand w path))) as [files [e'|]]; conclude.
Qed.

End ZeroValues.

(** C10: whenever an operation with a (value, error) result returns a
    non-nil error, the value next to it is the zero value of its type:
    false for [CreateDirectory] and [RemoveDirectory], the empty string for
    [LoadFileIfExists] and [GetFileSHA256Checksum], no name at all for
    [GetDirectoryContents]; in src/filesystem.go, on every receiver, and in
    the pointer-receiver lineage. *)
Theorem error_results_carry_zero_values {W : Type} `{NativeOS W}
  (fs : Logging.Filesystem) (w : W) (path : string) (recursive : bool) :
  (forall v e w', ValueReceiver.CreateDirectory fs path w = Ok ((v, Some e), w') ->
                  v = false)
  /\ (forall v e w', ValueReceiver.RemoveDirectory fs path recursive w
                     = Ok ((v, Some e), w') -> v = false)
  /\ (forall v e w', ValueReceiver.LoadFileIfExists fs path w
                     = Ok ((v, Some e), w') -> v = EmptyString)
  /\ (forall v e w', ValueReceiver.GetFileSHA256Checksum fs path w
                     = Ok ((v, Some e), w') -> v = EmptyString)
  /\ (forall v e w', ValueReceiver.GetDirectoryContents path w
                     = Ok ((v, Some e), w') -> v = [])
  /\ (forall v e w', PointerReceiver.CreateDirectory path w = Ok ((v, Some e), w') ->
                     v = false)
  /\ (forall v e w', PointerReceiver.RemoveDirectory path recursive w
                     = Ok ((v, Some e), w') -> v = false)
  /\ (forall v e w', PointerReceiver.LoadFileIfExists path w = Ok ((v, Some e), w') ->
                     v = EmptyString)
  /\ (forall v e w', PointerReceiver.GetFileSHA256Checksum path w
                     = Ok ((v, Some e), w') -> v = EmptyString)
  /\ (forall v e w', PointerReceiver.GetDirectoryContents path w
                     = Ok ((v, Some e), w') -> v = []).
Proof.
  repeat split; intros v e w' E.
  - exact (CreateDirectory_value_zero _ _ _ _ _ _ E).
  - exact (RemoveDirectory_value_zero _ _ _ _ _ _ _ E).
  - exact (LoadFileIfExists_value_zero _ _ _ _ _ _ E).
  - exact (GetFileSHA256Checksum_value_zero _ _ _ _ _ _ E).
  - exact (GetDirectoryContents_value_zero _ _ _ _ _ E).
  - exact (CreateDirectory_pointer_zero _ _ _ _ _ E).
  - exact (RemoveDirectory_pointer_zero _ _ _ _ _ _ E).
  - exact (LoadFileIfExists_pointer_zero _ _ _ _ _ E).
  - exact (GetFileSHA256Checksum_pointer_zero _ _ _ _ _ E).
  - exact (GetDirectoryContents_pointer_zero _ _ _ _ _ E).
Qed.

(** On [MemFS.host] every operation returns an error somewhere: "~bob/x"
    cannot be expanded, /srv/none is missing.  Of src/filesystem.go,
    [GetDirectoryContents] does so on any receiver, the other four on a
    receiver with a logger (without one they panic and return nothing). *)
Lemma error_results_carry_zero_values_witness :
  ((exists v e m, PointerReceiver.CreateDirectory "~bob/x" MemFS.host
                  = Ok ((v, Some e), m) /\ v = false)
   /\ (exists v e m, PointerReceiver.RemoveDirectory "/srv/none" false MemFS.host
                     = Ok ((v, Some e), m) /\ v = false)
   /\ (exists v e m, PointerReceiver.LoadFileIfExists "/srv/none" MemFS.host
                     = Ok ((v, Some e), m) /\ v = EmptyString)
   /\ (exists v e m, PointerReceiver.GetFileSHA256Checksum "~bob/x" MemFS.host
                     = Ok ((v, Some e), m) /\ v = EmptyString)
   /\ (exists v e m, PointerReceiver.GetDirectoryContents "/srv/none" MemFS.host
                     = Ok ((v, Some e), m) /\ v = []))
  /\ (exists v e m, ValueReceiver.GetDirectoryContents "/srv/none" MemFS.host
                    = Ok ((v, Some e), m) /\ v = [])
  /\ ((exists v e m, ValueReceiver.CreateDirectory logging "~bob/x" MemFS.host
                     = Ok ((v, Some e), m) /\ v = false)
      /\ (exists v e m, ValueReceiver.RemoveDirectory logging "/srv/none" false
                          MemFS.host
                        = Ok ((v, Some e), m) /\ v = false)
      /\ (exists v e m, ValueReceiver.LoadFileIfExists logging "/srv/none" MemFS.host
                        = Ok ((v, Some e), m) /\ v = EmptyString)
      /\ (exists v e m, ValueReceiver.GetFileSHA256Checksum logging "~bob/x"
                          MemFS.host
                        = Ok ((v, Some e), m) /\ v = EmptyString)).
Proof.
  pose proof (error_results_carry_zero_values logging MemFS.host "~bob/x" false)
    as [VC [_ [_ [VS [_ [PC [_ [_ [PS _]]]]]]]]].
  pose proof (error_results_carry_zero_values logging MemFS.host "/srv/none" false)
    as [_ [VR [VL [_ [VG [_ [PR [PL [_ PG]]]]]]]]].
  split; [|split].
  - split; [|split; [|split; [|split]]]; do 3 eexists;
      (split; [vm_compute; reflexivity|]).
    + eapply PC. vm_compute. reflexivity.
    + eapply PR. vm_compute. reflexivity.
    + eapply PL. vm_compute. reflexivity.
    + eapply PS. vm_compute. reflexivity.
    + eapply PG. vm_compute. reflexivity.
  - do 3 eexists. split; [vm_compute; reflexivity|].
    eapply VG. vm_compute. reflexivity.
  - split; [|split; [|split]]; do 3 eexists;
      (split; [vm_compute; reflexivity|]).
    + eapply VC. vm_compute. reflexivity.
    + eapply VR. vm_compute. reflexivity.
    + eapply VL. vm_compute. reflexivity.
    + eapply VS. vm_compute. reflexivity.
Defined.

(** * Further properties of the code *)

(** ** ForceTrailingSlash *)

(** X1: the pointer-receiver [ForceTrailingSlash] returns for every string;
    the result ends with the separator, is the string itself when that
    already ends with one, and is the string with exactly one separator
    appended when it does not (the empty string included). *)
Theorem ForceTrailingSlash_pointer_contract (s : string) :
  exists r, PointerReceiver.ForceTrailingSlash s = Ok r
            /\ ends_with_slash r = true
            /\ r = (if ends_with_slash s then s else s ++ "/")
            /\ String.length r
               = (if ends_with_slash s then String.length s
                  else S (String.length s)).
Proof.
  rewrite ForceTrailingSlash_pointer_total. eexists. split; [reflexivity|].
  destruct (ends_with_slash s) eqn:E.
  - repeat split. exact E.
  - split; [apply append_slash_ends|]. split; [reflexivity|].
    apply append_slash_length.
Qed.

(** X2: the pointer-receiver [ForceTrailingSlash] is idempotent: applied to
    its own result it returns that result. *)
Theorem ForceTrailingSlash_pointer_idempotent (s : string) :
  match PointerReceiver.ForceTrailingSlash s with
  | Ok r => PointerReceiver.ForceTrailingSlash r = Ok r
  | Panic _ => False
  end.
Proof.
  rewrite ForceTrailingSlash_pointer_total.
  rewrite ForceTrailingSlash_pointer_total.
  destruct (ends_with_slash s) eqn:E.
  - rewrite E. reflexivity.
  - rewrite append_slash_ends. reflexivity.
Qed.

(** X3: [ForceTrailingSlash] of src/filesystem.go and of the package-level
    lineage panics on the empty string and on no other: on every string that
    is not empty it returns what the pointer-receiver one returns. *)
Theorem ForceTrailingSlash_panics_only_on_empty (s : string) :
  ValueReceiver.ForceTrailingSlash s
  = match s with
    | EmptyString => Panic IndexOutOfRange
    | _ => Ok (if ends_with_slash s then s else s ++ "/")
    end
  /\ PackageLevel.ForceTrailingSlash s
     = match s with
       | EmptyString => Panic IndexOutOfRange
       | _ => Ok (if ends_with_slash s then s else s ++ "/")
       end.
Proof.
  destruct s as [|c s]; [split; reflexivity|].
  destruct (ForceTrailingSlash_nonempty c s) as [V P].
  rewrite V, P, ForceTrailingSlash_pointer_total. split; reflexivity.
Qed.

(** ** The predicates across the lineages *)

Section Agreement.
Context {W : Type} `{NativeOS W}.

Lemma isDirectory_empty (w : W) :
  PointerReceiver.isDirectory EmptyString w = Ok (false, w).
Proof. rewrite isDirectory_cases, os_Stat_empty. reflexivity. Qed.

Lemma isFile_empty (w : W) :
  PointerReceiver.isFile EmptyString w = Ok (false, w).
Proof. rewrite isFile_cases, os_Stat_empty. reflexivity. Qed.

End Agreement.

(** X4: [IsDirectory], [IsFile] and [CheckExists] behave alike in the
    pointer-receiver and the package-level lineage, for every machine and
    every path: the same answer or the same panic.  (The package-level
    functions drop the error of the expansion and go on with the empty
    path, which names nothing.)  Those of src/filesystem.go behave like
    them on a receiver with a logger, and panic at the logging call on a
    receiver without one. *)
Theorem predicates_agree_across_lineages {W : Type} `{NativeOS W}
  (fs : Logging.Filesystem) (w : W) (path : string) :
  PackageLevel.IsDirectory path w = PointerReceiver.IsDirectory path w
  /\ PackageLevel.IsFile path w = PointerReceiver.IsFile path w
  /\ PackageLevel.CheckExists path w = PointerReceiver.CheckExists path w
  /\ ValueReceiver.IsDirectory fs path w
     = with_logger fs (PointerReceiver.IsDirectory path w)
  /\ ValueReceiver.IsFile fs path w
     = with_logger fs (PointerReceiver.IsFile path w)
  /\ match ValueReceiver.CheckExists fs path w with
     | Ok ((b, _), w') => Ok (b, w')
     | Panic q => Panic q
     end = with_logger fs (PointerReceiver.CheckExists path w).
Proof.
  rewrite IsDirectory_value_unfold, IsFile_value_unfold,
    IsDirectory_package_unfold, IsFile_package_unfold,
    IsDirectory_pointer_unfold, IsFile_pointer_unfold,
    CheckExists_package_cases, CheckExists_pointer_cases, CheckExists_value_cases.
  destruct (expand w path) as [p [e|]] eqn:E; cbn [fst].
  - apply expand_error_empty in E. subst p.
    rewrite isDirectory_empty, isFile_empty, os_Stat_empty.
    receiver fs; repeat split.
  - receiver fs; repeat split; destruct (sys_Stat w p); reflexivity.
Qed.

(** X5: [CheckExists] of the pointer-receiver and of the package-level
    lineage returns for every machine and every path and leaves the machine
    as it was: unlike [IsDirectory] and [IsFile] it cannot panic.
    [CheckExists] of src/filesystem.go returns in the same way on a
    receiver with a logger, and panics on every path on a receiver without
    one. *)
Theorem CheckExists_always_returns {W : Type} `{NativeOS W}
  (fs : Logging.Filesystem) (w : W) (path : string) :
  (exists b, PointerReceiver.CheckExists path w = Ok (b, w))
  /\ (exists b, PackageLevel.CheckExists path w = Ok (b, w))
  /\ match Logging.Logger_of fs with
     | Some _ => exists b err, ValueReceiver.CheckExists fs path w = Ok ((b, err), w)
     | None => ValueReceiver.CheckExists fs path w = Panic NilDereference
     end.
Proof.
  rewrite CheckExists_value_cases, CheckExists_pointer_cases,
    CheckExists_package_cases.
  repeat split.
  - destruct (expand w path) as [p [e|]]; [eexists; reflexivity|].
    destruct (sys_Stat w p); eexists; reflexivity.
  - destruct (sys_Stat w (fst (expand w path))); eexists; reflexivity.
  - receiver fs; [|reflexivity].
    destruct (expand w path) as [p [e|]]; [do 2 eexists; reflexivity|].
    destruct (sys_Stat w p); do 2 eexists; reflexivity.
Qed.

(** X6: for a path whose expansion succeeds and names nothing ([os.Stat]
    reports a missing entry), [CheckExists], [IsDirectory] and [IsFile]
    return false and leave the machine as it was: in the pointer-receiver
    and the package-level lineage, and in src/filesystem.go on a receiver
    with a logger (on one without they panic).  So does the
    pointer-receiver [IsEmptyDirectory]; the other two [IsEmptyDirectory]
    expand the expanded path once more, and do so too when that second
    expansion leaves the path as it is. *)
Theorem predicates_false_on_missing_path {W : Type} `{NativeOS W}
  (fs : Logging.Filesystem) (w : W) (path p : string) :
  expand w path = (p, None) ->
  sys_Stat w p = inl (SyscallError ENOENT) ->
  (PointerReceiver.CheckExists path w = Ok (false, w)
   /\ PointerReceiver.IsDirectory path w = Ok (false, w)
   /\ PointerReceiver.IsFile path w = Ok (false, w)
   /\ PointerReceiver.IsEmptyDirectory path w = Ok (false, w))
  /\ (PackageLevel.CheckExists path w = Ok (false, w)
      /\ PackageLevel.IsDirectory path w = Ok (false, w)
      /\ PackageLevel.IsFile path w = Ok (false, w)
      /\ (expand w p = (p, None) ->
          PackageLevel.IsEmptyDirectory path w = Ok (false, w)))
  /\ (ValueReceiver.CheckExists fs path w = with_logger fs (Ok ((false, None), w))
      /\ ValueReceiver.IsDirectory fs path w = with_logger fs (Ok (false, w))
      /\ ValueReceiver.IsFile fs path w = with_logger fs (Ok (false, w))
      /\ (expand w p = (p, None) ->
          ValueReceiver.IsEmptyDirectory fs path w = with_logger fs (Ok (false, w)))).
Proof.
  intros E1 S.
  receiver fs;
    unfold ValueReceiver.CheckExists, ValueReceiver.IsDirectory, ValueReceiver.IsFile,
      ValueReceiver.IsEmptyDirectory, ValueReceiver.IsDirectory,
      ValueReceiver.BuildAbsolutePathFromHome,
      PointerReceiver.CheckExists, PointerReceiver.IsDirectory, PointerReceiver.IsFile,
      PointerReceiver.IsEmptyDirectory, PointerReceiver.isDirectory,
      PointerReceiver.isFile, PointerReceiver.BuildAbsolutePathFromHome,
      PackageLevel.CheckExists, PackageLevel.IsDirectory, PackageLevel.IsFile,
      PackageLevel.IsEmptyDirectory, PackageLevel.IsDirectory,
      PackageLevel.BuildAbsolutePathFromHome;
    run; drive; repeat split; intros; drive; reflexivity.
Qed.

(** On [MemFS.host] nothing is at /srv/none. *)
Lemma predicates_false_on_missing_path_witness :
  PointerReceiver.IsFile "/srv/none" MemFS.host = Ok (false, MemFS.host)
  /\ PointerReceiver.IsEmptyDirectory "/srv/none" MemFS.host = Ok (false, MemFS.host)
  /\ PackageLevel.CheckExists "/srv/none" MemFS.host = Ok (false, MemFS.host)
  /\ PackageLevel.IsEmptyDirectory "/srv/none" MemFS.host = Ok (false, MemFS.host)
  /\ ValueReceiver.IsDirectory logging "/srv/none" MemFS.host = Ok (false, MemFS.host)
  /\ ValueReceiver.IsDirectory bare "/srv/none" MemFS.host = Panic NilDereference.
Proof.
  pose proof (predicates_false_on_missing_path logging MemFS.host "/srv/none"
                "/srv/none" eq_refl eq_refl)
    as [[_ [_ [P3 P4]]] [[K1 [_ [_ K4]]] [_ [V2 _]]]].
  pose proof (predicates_false_on_missing_path bare MemFS.host "/srv/none"
                "/srv/none" eq_refl eq_refl) as [_ [_ [_ [B2 _]]]].
  split; [exact P3|]. split; [exact P4|]. split; [exact K1|].
  split; [exact (K4 eq_refl)|]. split; [exact V2 | exact B2].
Defined.

(** X7: when the expansion of the path fails, the four predicates of the
    pointer-receiver and of the package-level lineage do not panic and do
    not answer true: each returns false, the machine unchanged.  Those of
    src/filesystem.go do the same on a receiver with a logger ([CheckExists]
    hands the error of the expansion back beside false), and panic on a
    receiver without one. *)
Theorem predicates_false_on_failed_expansion {W : Type} `{NativeOS W}
  (fs : Logging.Filesystem) (w : W) (path p : string) (e : error) :
  expand w path = (p, Some e) ->
  (PointerReceiver.CheckExists path w = Ok (false, w)
   /\ PointerReceiver.IsDirectory path w = Ok (false, w)
   /\ PointerReceiver.IsFile path w = Ok (false, w)
   /\ PointerReceiver.IsEmptyDirectory path w = Ok (false, w))
  /\ (PackageLevel.CheckExists path w = Ok (false, w)
      /\ PackageLevel.IsDirectory path w = Ok (false, w)
      /\ PackageLevel.IsFile path w = Ok (false, w)
      /\ PackageLevel.IsEmptyDirectory path w = Ok (false, w))
  /\ (ValueReceiver.CheckExists fs path w
      = with_logger fs (Ok ((false, Some e), w))
      /\ ValueReceiver.IsDirectory fs path w = with_logger fs (Ok (false, w))
      /\ ValueReceiver.IsFile fs path w = with_logger fs (Ok (false, w))
      /\ ValueReceiver.IsEmptyDirectory fs path w = with_logger fs (Ok (false, w))).
Proof.
  intro E. pose proof (expand_error_empty _ _ _ _ E) as P0. subst p.
  pose proof (expand_empty w) as E0. pose proof (os_Stat_empty w) as S0.
  receiver fs;
    unfold ValueReceiver.CheckExists, ValueReceiver.IsDirectory, ValueReceiver.IsFile,
      ValueReceiver.IsEmptyDirectory, ValueReceiver.IsDirectory,
      ValueReceiver.BuildAbsolutePathFromHome,
      PointerReceiver.CheckExists, PointerReceiver.IsDirectory, PointerReceiver.IsFile,
      PointerReceiver.IsEmptyDirectory, PointerReceiver.isDirectory,
      PointerReceiver.isFile, PointerReceiver.BuildAbsolutePathFromHome,
      PackageLevel.CheckExists, PackageLevel.IsDirectory, PackageLevel.IsFile,
      PackageLevel.IsEmptyDirectory, PackageLevel.IsDirectory,
      PackageLevel.BuildAbsolutePathFromHome;
    run; drive; repeat split.
Qed.

(** On [MemFS.host], "~bob/x" asks for the home of another user, which
    go-homedir refuses. *)
Lemma predicates_false_on_failed_expansion_witness :
  PointerReceiver.IsDirectory "~bob/x" MemFS.host = Ok (false, MemFS.host)
  /\ PackageLevel.IsEmptyDirectory "~bob/x" MemFS.host = Ok (false, MemFS.host)
  /\ ValueReceiver.CheckExists logging "~bob/x" MemFS.host
     = Ok ((false, Some (ErrorsNew "cannot expand user-specific home dir")),
           MemFS.host)
  /\ ValueReceiver.CheckExists bare "~bob/x" MemFS.host = Panic NilDereference.
Proof.
  pose proof (predicates_false_on_failed_expansion logging MemFS.host "~bob/x"
                EmptyString (ErrorsNew "cannot expand user-specific home dir") eq_refl)
    as [[_ [P2 _]] [[_ [_ [_ K4]]] [V1 _]]].
  pose proof (predicates_false_on_failed_expansion bare MemFS.host "~bob/x"
                EmptyString (ErrorsNew "cannot expand user-specific home dir") eq_refl)
    as [_ [_ [B1 _]]].
  split; [exact P2|]. split; [exact K4|]. split; [exact V1 | exact B1].
Defined.

(** X8: in the pointer-receiver lineage [IsEmptyDirectory] answers true
    only for a path for which [IsDirectory] answers true, and never for one
    for which [IsFile] does. *)
Theorem IsEmptyDirectory_only_for_directories {W : Type} `{NativeOS W}
  (w : W) (path : string) :
  implb (answers_true (PointerReceiver.IsEmptyDirectory path w))
        (answers_true (PointerReceiver.IsDirectory path w)) = true
  /\ answers_true (PointerReceiver.IsEmptyDirectory path w)
     && answers_true (PointerReceiver.IsFile path w) = false.
Proof.
  assert (A : implb (answers_true (PointerReceiver.IsEmptyDirectory path w))
                    (answers_true (PointerReceiver.IsDirectory path w)) = true).
  { rewrite IsDirectory_pointer_unfold.
    unfold PointerReceiver.IsEmptyDirectory, PointerReceiver.BuildAbsolutePathFromHome.
    run. destruct (expand w path) as [p [e|]]; cbn [is_nil]; cbv beta iota zeta;
      [reflexivity|].
    destruct (PointerReceiver.isDirectory p w) as [[[|] w1]|q]; cbv beta iota zeta;
      try reflexivity.
    destruct (answers_true _); reflexivity. }
  split; [exact A|].
  assert (X : answers_true (PointerReceiver.IsDirectory path w)
               && answers_true (PointerReceiver.IsFile path w) = false).
  { rewrite IsDirectory_pointer_unfold, IsFile_pointer_unfold.
    destruct (expand w path) as [p [e|]]; [reflexivity|].
    apply private_predicates_exclusive. }
  destruct (answers_true (PointerReceiver.IsEmptyDirectory path w)); [|reflexivity].
  cbn [implb] in A. rewrite A in X. exact X.
Qed.

(** ** CreateDirectory and RemoveDirectory *)

(** X9: the pointer-receiver [CreateDirectory], case by case.  A failed
    expansion is returned as (false, err) and nothing is made.  A path that
    is a directory already gives (true, nil) and the machine is not touched.
    For a path that is missing or is not a directory, [os.MkdirAll] is
    called once on the expanded path with mode 0755, and the result is
    (true, nil) when it succeeds and (false, its error) when it fails. *)
Theorem CreateDirectory_pointer_contract {W : Type} `{NativeOS W}
  (w : W) (path : string) :
  (forall p e, expand w path = (p, Some e) ->
     PointerReceiver.CreateDirectory path w = Ok ((false, Some e), w))
  /\ (forall p fi, expand w path = (p, None) ->
        sys_Stat w p = inr fi -> fi_IsDir fi = true ->
        PointerReceiver.CreateDirectory path w = Ok ((true, None), w))
  /\ (forall p, expand w path = (p, None) ->
        (sys_Stat w p = inl (SyscallError ENOENT)
         \/ exists fi, sys_Stat w p = inr fi /\ fi_IsDir fi = false) ->
        PointerReceiver.CreateDirectory path w
        = let (err, w') := sys_MkdirAll p 493 w in Ok ((is_nil err, err), w')).
Proof.
  split; [|split].
  - intros p e E.
    unfold PointerReceiver.CreateDirectory, PointerReceiver.BuildAbsolutePathFromHome.
    run. drive. reflexivity.
  - intros p fi E S D. rewrite (CreateDirectory_pointer_cases w path p E).
    rewrite isDirectory_cases, S, D. reflexivity.
  - intros p E [S|[fi [S D]]]; rewrite (CreateDirectory_pointer_cases w path p E);
      rewrite isDirectory_cases, S; [|rewrite D]; reflexivity.
Qed.

(** On [MemFS.host]: "~bob/x" cannot be expanded, /srv is there, /srv/a/b
    is made with its parent, and /etc/passwd is a file, where [os.MkdirAll]
    fails. *)
Lemma CreateDirectory_pointer_contract_witness :
  PointerReceiver.CreateDirectory "~bob/x" MemFS.host
  = Ok ((false, Some (ErrorsNew "cannot expand user-specific home dir")), MemFS.host)
  /\ PointerReceiver.CreateDirectory "/srv" MemFS.host = Ok ((true, None), MemFS.host)
  /\ (exists m, PointerReceiver.CreateDirectory "/srv/a/b" MemFS.host
                = Ok ((true, None), m)
                /\ PointerReceiver.IsDirectory "/srv/a/b" m = Ok (true, m))
  /\ PointerReceiver.CreateDirectory "/etc/passwd" MemFS.host
     = Ok ((false, Some (SyscallError ENOTDIR)), MemFS.host).
Proof.
  split; [|split; [|split]].
  - destruct (CreateDirectory_pointer_contract MemFS.host "~bob/x") as [F _].
    exact (F EmptyString _ eq_refl).
  - destruct (CreateDirectory_pointer_contract MemFS.host "/srv") as [_ [D _]].
    exact (D "/srv" (mkFileInfo "srv" true) eq_refl eq_refl eq_refl).
  - destruct (CreateDirectory_pointer_contract MemFS.host "/srv/a/b") as [_ [_ M]].
    eexists. split.
    + rewrite (M "/srv/a/b" eq_refl (or_introl eq_refl)). vm_compute. reflexivity.
    + reflexivity.
  - destruct (CreateDirectory_pointer_contract MemFS.host "/etc/passwd") as [_ [_ M]].
    rewrite (M "/etc/passwd" eq_refl
               (or_intror (ex_intro _ (mkFileInfo "passwd" false) (conj eq_refl eq_refl)))).
    reflexivity.
Defined.

(** X10: once the expanded path is a directory, the pointer-receiver
    [CreateDirectory] can be called any number of times in a row: every
    call returns (true, nil) and the machine stays as it was. *)
Theorem CreateDirectory_pointer_repeated {W : Type} `{NativeOS W}
  (n : nat) (w : W) (path p : string) (fi : FileInfo) :
  expand w path = (p, None) -> sys_Stat w p = inr fi -> fi_IsDir fi = true ->
  again n (PointerReceiver.CreateDirectory path) w = Ok ((true, None), w).
Proof.
  intros E S D.
  assert (One : PointerReceiver.CreateDirectory path w = Ok ((true, None), w)).
  { rewrite (CreateDirectory_pointer_cases w path p E), isDirectory_cases, S, D.
    reflexivity. }
  induction n as [|n IH]; cbn [again]; [exact One|].
  unfold bind. rewrite One. exact IH.
Qed.

Lemma CreateDirectory_pointer_repeated_witness :
  again 3 (PointerReceiver.CreateDirectory "~/d") MemFS.host
  = Ok ((true, None), MemFS.host).
Proof.
  exact (CreateDirectory_pointer_repeated 3 MemFS.host "~/d" "/home/u/d"
           (mkFileInfo "d" true) eq_refl eq_refl eq_refl).
Defined.

Section Flags.
Context {W : Type} `{NativeOS W}.

Ltac settle :=
  cbn [is_nil negb]; cbv beta iota zeta; intros;
  try discriminate;
  match goal with
  | E : Ok _ = Ok _ |- _ => inversion E; subst; reflexivity
  end.

Lemma CreateDirectory_value_flag (fs : Logging.Filesystem) (w w' : W)
  (path : string) (v : bool) (err : option error) :
  ValueReceiver.CreateDirectory fs path w = Ok ((v, err), w') -> v = is_nil err.
Proof.
  unfold ValueReceiver.CreateDirectory. unfold bind at 1.
  rewrite BuildAbsolutePathFromHome_value_unfold.
  pose proof (IsDirectory_value_empty fs w) as D0.
  receiver fs; [|discriminate].
  destruct (expand w path) as [p [e|]] eqn:E; cbn [is_nil negb]; cbv beta iota zeta.
  - apply expand_error_empty in E. subst p.
    unfold bind at 1. rewrite D0. run.
    destruct (sys_MkdirAll EmptyString 493 w) as [[e'|] w'']; settle.
  - unfold ret. settle.
Qed.

Lemma CreateDirectory_pointer_flag (w w' : W) (path : string) (v : bool)
  (err : option error) :
  PointerReceiver.CreateDirectory path w = Ok ((v, err), w') -> v = is_nil err.
Proof.
  unfold PointerReceiver.CreateDirectory, PointerReceiver.BuildAbsolutePathFromHome.
  run. destruct (expand w path) as [p [e|]]; cbn [is_nil]; cbv beta iota zeta;
    [settle|].
  destruct (PointerReceiver.isDirectory p w) as [[[|] w1]|q]; cbn [negb];
    cbv beta iota zeta; try settle.
  destruct (sys_MkdirAll p 493 w1) as [[e'|] w'']; settle.
Qed.

Lemma RemoveDirectory_value_flag (fs : Logging.Filesystem) (w w' : W)
  (path : string) (recursive v : bool) (err : option error) :
  ValueReceiver.RemoveDirectory fs path recursive w = Ok ((v, err), w') ->
  v = is_nil err.
Proof.
  unfold ValueReceiver.RemoveDirectory. run.
  destruct (ValueReceiver.IsDirectory fs path w) as [[[|] w1]|q]; cbv beta iota zeta;
    try settle.
  destruct recursive;
    [destruct (sys_RemoveAll path w1) as [[e'|] w''] | destruct (sys_Remove path w1) as [[e'|] w'']];
    settle.
Qed.

Lemma RemoveDirectory_pointer_flag (w w' : W) (path : string) (recursive v : bool)
  (err : option error) :
  PointerReceiver.RemoveDirectory path recursive w = Ok ((v, err), w') -> v = is_nil err.
Proof.
  unfold PointerReceiver.RemoveDirectory, PointerReceiver.BuildAbsolutePathFromHome.
  run. destruct (expand w path) as [p [e|]]; cbn [is_nil]; cbv beta iota zeta;
    [settle|].
  destruct (PointerReceiver.isDirectory p w) as [[[|] w1]|q]; cbv beta iota zeta;
    try settle.
  destruct recursive;
    [destruct (sys_RemoveAll p w1) as [[e'|] w''] | destruct (sys_Remove p w1) as [[e'|] w'']];
    settle.
Qed.

End Flags.

(** X11: whatever [CreateDirectory] and [RemoveDirectory] return, in both
    struct lineages (in src/filesystem.go on every receiver), the boolean
    is true exactly when the error is nil: a caller may test either one. *)
Theorem success_flag_is_nil_error {W : Type} `{NativeOS W}
  (fs : Logging.Filesystem) (w : W) (path : string) (recursive : bool) :
  (forall v err w', ValueReceiver.CreateDirectory fs path w = Ok ((v, err), w') ->
                    v = is_nil err)
  /\ (forall v err w', ValueReceiver.RemoveDirectory fs path recursive w
                       = Ok ((v, err), w') -> v = is_nil err)
  /\ (forall v err w', PointerReceiver.CreateDirectory path w = Ok ((v, err), w') ->
                       v = is_nil err)
  /\ (forall v err w', PointerReceiver.RemoveDirectory path recursive w
                       = Ok ((v, err), w') -> v = is_nil err).
Proof.
  repeat split; intros v err w' E.
  - exact (CreateDirectory_value_flag _ _ _ _ _ _ E).
  - exact (RemoveDirectory_value_flag _ _ _ _ _ _ _ E).
  - exact (CreateDirectory_pointer_flag _ _ _ _ _ E).
  - exact (RemoveDirectory_pointer_flag _ _ _ _ _ _ E).
Qed.

Lemma success_flag_is_nil_error_witness :
  (exists v err m, PointerReceiver.CreateDirectory "/srv/a" MemFS.host
                   = Ok ((v, err), m) /\ err = None /\ v = true)
  /\ (exists v err m, PointerReceiver.RemoveDirectory "/srv" false MemFS.host
                      = Ok ((v, err), m)
                      /\ err = Some (SyscallError ENOTEMPTY) /\ v = false)
  /\ (exists v err m, ValueReceiver.RemoveDirectory logging "/srv" false MemFS.host
                      = Ok ((v, err), m)
                      /\ err = Some (SyscallError ENOTEMPTY) /\ v = false).
Proof.
  pose proof (success_flag_is_nil_error logging MemFS.host "/srv/a" false)
    as [_ [_ [C _]]].
  pose proof (success_flag_is_nil_error logging MemFS.host "/srv" false)
    as [_ [V [_ R]]].
  split; [|split].
  - do 3 eexists. split; [vm_compute; reflexivity|]. split; [reflexivity|].
    eapply (C _ None). vm_compute. reflexivity.
  - do 3 eexists. split; [vm_compute; reflexivity|]. split; [reflexivity|].
    eapply (R _ (Some (SyscallError ENOTEMPTY))). vm_compute. reflexivity.
  - do 3 eexists. split; [vm_compute; reflexivity|]. split; [reflexivity|].
    eapply (V _ (Some (SyscallError ENOTEMPTY))). vm_compute. reflexivity.
Defined.

(** X12: the pointer-receiver [RemoveDirectory], case by case.  A failed
    expansion is returned as (false, err).  A path that is missing or is
    not a directory is refused with the error "<expanded path> is not a
    directory", and nothing is removed: the machine is not touched, so a
    regular file is never removed.  For a directory exactly one removal is
    called on the expanded path, [os.RemoveAll] when [recursive] is set and
    [os.Remove] when it is not. *)
Theorem RemoveDirectory_pointer_contract {W : Type} `{NativeOS W}
  (w : W) (path : string) (recursive : bool) :
  (forall p e, expand w path = (p, Some e) ->
     PointerReceiver.RemoveDirectory path recursive w = Ok ((false, Some e), w))
  /\ (forall p, expand w path = (p, None) ->
        (sys_Stat w p = inl (SyscallError ENOENT)
         \/ exists fi, sys_Stat w p = inr fi /\ fi_IsDir fi = false) ->
        PointerReceiver.RemoveDirectory path recursive w
        = Ok ((false, Some (ErrorsNew (p ++ " is not a directory"))), w))
  /\ (forall p fi, expand w path = (p, None) ->
        sys_Stat w p = inr fi -> fi_IsDir fi = true ->
        PointerReceiver.RemoveDirectory path recursive w
        = let (err, w') :=
            (if recursive then sys_RemoveAll p w else sys_Remove p w) in
          Ok ((is_nil err, err), w')).
Proof.
  split; [|split].
  - intros p e E.
    unfold PointerReceiver.RemoveDirectory, PointerReceiver.BuildAbsolutePathFromHome.
    run. drive. reflexivity.
  - intros p E [S|[fi [S D]]];
      unfold PointerReceiver.RemoveDirectory, PointerReceiver.isDirectory,
        PointerReceiver.BuildAbsolutePathFromHome;
      run; drive; reflexivity.
  - intros p fi E S D. apply RemoveDirectory_pointer_expands; [exact E|].
    rewrite isDirectory_cases, S, D. reflexivity.
Qed.

(** On [MemFS.host]: /etc/passwd is a file and stays; /srv holds a file, so
    it goes only with [recursive]. *)
Lemma RemoveDirectory_pointer_contract_witness :
  PointerReceiver.RemoveDirectory "/etc/passwd" true MemFS.host
  = Ok ((false, Some (ErrorsNew "/etc/passwd is not a directory")), MemFS.host)
  /\ PointerReceiver.RemoveDirectory "/srv" false MemFS.host
     = Ok ((false, Some (SyscallError ENOTEMPTY)), MemFS.host)
  /\ (exists m, PointerReceiver.RemoveDirectory "/srv" true MemFS.host
                = Ok ((true, None), m)
                /\ PointerReceiver.CheckExists "/srv/secret" m = Ok (false, m)).
Proof.
  split; [|split].
  - destruct (RemoveDirectory_pointer_contract MemFS.host "/etc/passwd" true)
      as [_ [N _]].
    exact (N "/etc/passwd" eq_refl
             (or_intror (ex_intro _ (mkFileInfo "passwd" false) (conj eq_refl eq_refl)))).
  - destruct (RemoveDirectory_pointer_contract MemFS.host "/srv" false) as [_ [_ D]].
    exact (D "/srv" (mkFileInfo "srv" true) eq_refl eq_refl eq_refl).
  - destruct (RemoveDirectory_pointer_contract MemFS.host "/srv" true) as [_ [_ D]].
    eexists. split.
    + rewrite (D "/srv" (mkFileInfo "srv" true) eq_refl eq_refl eq_refl).
      vm_compute. reflexivity.
    + reflexivity.
Defined.

(** ** GetDirectoryContents *)

(** X13: [GetDirectoryContents] returns one name per entry that
    [ioutil.ReadDir] gives, in the order it gives them, and the machine is
    not touched.  The pointer-receiver lineage reads the expanded path (the
    empty path after a failed expansion) and returns no name beside an
    error; src/filesystem.go reads the path as given; the package-level
    function reads the path as given, drops the error and returns the names
    of whatever entries came with it. *)
Theorem GetDirectoryContents_names_in_order {W : Type} `{NativeOS W}
  (w : W) (path : string) :
  PointerReceiver.GetDirectoryContents path w
  = (let (files, err) := sys_ReadDir w (fst (expand w path)) in
     Ok ((if is_nil err then map fi_Name files else [], err), w))
  /\ ValueReceiver.GetDirectoryContents path w
     = (let (files, err) := sys_ReadDir w path in
        Ok ((if is_nil err then map fi_Name files else [], err), w))
  /\ PackageLevel.GetDirectoryContents path w
     = Ok (map fi_Name (fst (sys_ReadDir w path)), w).
Proof.
  rewrite GetDirectoryContents_pointer_cases, GetDirectoryContents_value_cases.
  split; [|split].
  - destruct (sys_ReadDir w (fst (expand w path))) as [files [e|]]; reflexivity.
  - destruct (sys_ReadDir w path) as [files [e|]]; reflexivity.
  - unfold PackageLevel.GetDirectoryContents. run.
    destruct (sys_ReadDir w path) as [files err]. cbn [fst].
    rewrite append_names_app. reflexivity.
Qed.

(** ** LoadFileIfExists, GetFileSHA256Checksum and WriteFile *)

Section Files.
Context {W : Type} `{NativeOS W}.

Lemma checksum_then_load_pointer (w w' : W) (path d : string) :
  PointerReceiver.GetFileSHA256Checksum path w = Ok ((d, None), w') ->
  exists c, PointerReceiver.LoadFileIfExists path w = Ok ((c, None), w)
            /\ d = checksum_string c /\ w' = w.
Proof.
  unfold PointerReceiver.GetFileSHA256Checksum, PointerReceiver.LoadFileIfExists,
    PointerReceiver.BuildAbsolutePathFromHome.
  run. destruct (expand w path) as [p [e|]]; cbn [is_nil]; cbv beta iota zeta;
    [discriminate|].
  rewrite isFile_cases.
  destruct (sys_Stat w p) as [e|fi]; cbv beta iota zeta.
  - destruct (os_IsNotExist (Some e)); cbv beta iota zeta; discriminate.
  - destruct (fi_IsDir fi); cbn [negb]; cbv beta iota zeta; [discriminate|].
    destruct (sys_ReadFile w p) as [c [e|]]; cbn [is_nil]; cbv beta iota zeta;
      [discriminate|].
    intro E. inversion E. exists c. repeat split.
Qed.

Lemma checksum_then_load_value (fs : Logging.Filesystem) (w w' : W)
  (path d : string) :
  ValueReceiver.GetFileSHA256Checksum fs path w = Ok ((d, None), w') ->
  exists c, ValueReceiver.LoadFileIfExists fs path w = Ok ((c, None), w)
            /\ d = checksum_string c /\ w' = w.
Proof.
  receiver fs;
    unfold ValueReceiver.GetFileSHA256Checksum, ValueReceiver.LoadFileIfExists,
      ValueReceiver.BuildAbsolutePathFromHome;
    run;
    (destruct (expand w path) as [p [e|]]; cbn [is_nil]; cbv beta iota zeta;
     try discriminate).
  rewrite IsFile_value_unfold, isFile_cases.
  unfold with_logger. cbn [Logging.Logger_of].
  destruct (sys_Stat w (fst (expand w p))) as [e|fi]; cbv beta iota zeta.
  - destruct (os_IsNotExist (Some e)); cbv beta iota zeta; discriminate.
  - destruct (fi_IsDir fi); cbn [negb]; cbv beta iota zeta; [discriminate|].
    destruct (sys_ReadFile w p) as [c [e|]]; cbn [is_nil]; cbv beta iota zeta;
      [discriminate|].
    intro E. inversion E. exists c. repeat split.
Qed.

End Files.

(** X14: whenever [GetFileSHA256Checksum] returns a digest with a nil
    error, [LoadFileIfExists] on the same path and machine returns a
    content with a nil error, and the digest is the SHA-256 checksum string
    of exactly that content; in both struct lineages, in src/filesystem.go
    on every receiver. *)
Theorem checksum_is_of_loaded_content {W : Type} `{NativeOS W}
  (fs : Logging.Filesystem) (w : W) (path : string) :
  (forall d w', PointerReceiver.GetFileSHA256Checksum path w = Ok ((d, None), w') ->
     exists c, PointerReceiver.LoadFileIfExists path w = Ok ((c, None), w)
               /\ d = checksum_string c /\ w' = w)
  /\ (forall d w', ValueReceiver.GetFileSHA256Checksum fs path w
                   = Ok ((d, None), w') ->
        exists c, ValueReceiver.LoadFileIfExists fs path w = Ok ((c, None), w)
                  /\ d = checksum_string c /\ w' = w).
Proof.
  split; intros d w' E.
  - exact (checksum_then_load_pointer _ _ _ _ E).
  - exact (checksum_then_load_value _ _ _ _ _ E).
Qed.

Lemma checksum_is_of_loaded_content_witness :
  (exists c,
     PointerReceiver.LoadFileIfExists "~/d/test.file" MemFS.host
     = Ok ((c, None), MemFS.host)
     /\ "9f86d081884c7d659a2feaa0c55ad015a3bf4f1b2b0b822cd15d6c15b0f00a08"
        = checksum_string c)
  /\ (exists c,
        ValueReceiver.LoadFileIfExists logging "/home/u/d/test.file" MemFS.host
        = Ok ((c, None), MemFS.host)
        /\ "9f86d081884c7d659a2feaa0c55ad015a3bf4f1b2b0b822cd15d6c15b0f00a08"
           = checksum_string c).
Proof.
  destruct (@checksum_is_of_loaded_content _ MemFS.native logging MemFS.host
              "~/d/test.file") as [P _].
  destruct (@checksum_is_of_loaded_content _ MemFS.native logging MemFS.host
              "/home/u/d/test.file") as [_ V].
  split.
  - destruct (P "9f86d081884c7d659a2feaa0c55ad015a3bf4f1b2b0b822cd15d6c15b0f00a08"
                MemFS.host) as [c [L [D _]]].
    + vm_compute. reflexivity.
    + exists c. split; assumption.
  - destruct (V "9f86d081884c7d659a2feaa0c55ad015a3bf4f1b2b0b822cd15d6c15b0f00a08"
                MemFS.host) as [c [L [D _]]].
    + vm_compute. reflexivity.
    + exists c. split; assumption.
Defined.

(** X15: the pointer-receiver [LoadFileIfExists] for a path whose
    expansion succeeds: a regular file that is read gives its content,
    byte for byte, with a nil error; a directory and a missing path give
    the empty string with the error "<expanded path> is not a file".  The
    machine is not touched. *)
Theorem LoadFileIfExists_pointer_contract {W : Type} `{NativeOS W}
  (w : W) (path p : string) :
  expand w path = (p, None) ->
  (forall fi c, sys_Stat w p = inr fi -> fi_IsDir fi = false ->
                sys_ReadFile w p = (c, None) ->
                PointerReceiver.LoadFileIfExists path w = Ok ((c, None), w))
  /\ (forall fi, sys_Stat w p = inr fi -> fi_IsDir fi = true ->
                 PointerReceiver.LoadFileIfExists path w
                 = Ok ((EmptyString, Some (ErrorsNew (p ++ " is not a file"))), w))
  /\ (sys_Stat w p = inl (SyscallError ENOENT) ->
      PointerReceiver.LoadFileIfExists path w
      = Ok ((EmptyString, Some (ErrorsNew (p ++ " is not a file"))), w)).
Proof.
  intro E.
  unfold PointerReceiver.LoadFileIfExists, PointerReceiver.isFile,
    PointerReceiver.BuildAbsolutePathFromHome.
  repeat split; intros; run; drive; reflexivity.
Qed.

Lemma LoadFileIfExists_pointer_contract_witness :
  PointerReceiver.LoadFileIfExists "/etc/passwd" MemFS.host
  = Ok (("root:x:0:0", None), MemFS.host)
  /\ PointerReceiver.LoadFileIfExists "~/d" MemFS.host
     = Ok ((EmptyString, Some (ErrorsNew "/home/u/d is not a file")), MemFS.host)
  /\ PointerReceiver.LoadFileIfExists "/srv/none" MemFS.host
     = Ok ((EmptyString, Some (ErrorsNew "/srv/none is not a file")), MemFS.host).
Proof.
  split; [|split].
  - destruct (LoadFileIfExists_pointer_contract MemFS.host "/etc/passwd" "/etc/passwd"
                eq_refl) as [R _].
    exact (R (mkFileInfo "passwd" false) "root:x:0:0" eq_refl eq_refl eq_refl).
  - destruct (@LoadFileIfExists_pointer_contract _ MemFS.native MemFS.host
                "~/d" "/home/u/d" eq_refl) as [_ [D _]].
    exact (D (mkFileInfo "d" true) eq_refl eq_refl).
  - destruct (LoadFileIfExists_pointer_contract MemFS.host "/srv/none" "/srv/none"
                eq_refl) as [_ [_ N]].
    exact (N eq_refl).
Defined.

(** X16: [WriteFile] writes nothing when the expansion fails: the
    pointer-receiver method returns the error of the expansion and the
    machine is as it was.  When the expansion succeeds it makes one call of
    [ioutil.WriteFile] on the expanded path, with the data and the mode as
    they were given, and returns its error.  [WriteFile] of
    src/filesystem.go does the same on a receiver with a logger; on a
    receiver without one it panics at the logging call and writes nothing.
    The package-level function writes to whatever path the expansion handed
    back and drops the error. *)
Theorem WriteFile_expands_then_writes {W : Type} `{NativeOS W}
  (fs : Logging.Filesystem) (w : W) (path : string) (data : bytes)
  (mode : FileMode) :
  (forall p e, expand w path = (p, Some e) ->
     ValueReceiver.WriteFile fs path data mode w = with_logger fs (Ok (Some e, w))
     /\ PointerReceiver.WriteFile path data mode w = Ok (Some e, w))
  /\ (forall p, expand w path = (p, None) ->
        ValueReceiver.WriteFile fs path data mode w
        = with_logger fs (Ok (sys_WriteFile p data mode w))
        /\ PointerReceiver.WriteFile path data mode w
           = Ok (sys_WriteFile p data mode w))
  /\ PackageLevel.WriteFile path data mode w
     = Ok (tt, snd (sys_WriteFile (fst (expand w path)) data mode w)).
Proof.
  receiver fs;
    unfold ValueReceiver.WriteFile, PointerReceiver.WriteFile, PackageLevel.WriteFile,
      ValueReceiver.BuildAbsolutePathFromHome,
      PointerReceiver.BuildAbsolutePathFromHome,
      PackageLevel.BuildAbsolutePathFromHome;
    (split; [|split];
     [ intros p e E; run; drive; split; reflexivity
     | intros p E; run; drive; split; reflexivity
     | run; destruct (expand w path) as [p err]; cbn [fst];
       destruct (sys_WriteFile p data mode w) as [e w']; reflexivity ]).
Qed.

(** On [MemFS.host]: "~bob/x" cannot be expanded, and /srv/none, the parent
    of the file to write, is not there. *)
Lemma WriteFile_expands_then_writes_witness :
  PointerReceiver.WriteFile "~bob/x" "test" 420 MemFS.host
  = Ok (Some (ErrorsNew "cannot expand user-specific home dir"), MemFS.host)
  /\ PointerReceiver.WriteFile "/srv/none/file" "test" 420 MemFS.host
     = Ok (Some (SyscallError ENOENT), MemFS.host)
  /\ ValueReceiver.WriteFile logging "/srv/none/file" "test" 420 MemFS.host
     = Ok (Some (SyscallError ENOENT), MemFS.host)
  /\ ValueReceiver.WriteFile bare "/srv/none/file" "test" 420 MemFS.host
     = Panic NilDereference.
Proof.
  destruct (@WriteFile_expands_then_writes _ MemFS.native logging MemFS.host
              "~bob/x" "test" 420) as [F _].
  destruct (WriteFile_expands_then_writes logging MemFS.host "/srv/none/file"
              "test" 420) as [_ [S _]].
  destruct (WriteFile_expands_then_writes bare MemFS.host "/srv/none/file"
              "test" 420) as [_ [B _]].
  split; [|split; [|split]].
  - exact (proj2 (F EmptyString _ eq_refl)).
  - exact (proj2 (S "/srv/none/file" eq_refl)).
  - exact (proj1 (S "/srv/none/file" eq_refl)).
  - exact (proj1 (B "/srv/none/file" eq_refl)).
Defined.

(** X17: write, then load.  If [ioutil.WriteFile] succeeds and the machine
    it leaves shows the expanded path as a regular file that reads back as
    the data written, then [WriteFile] followed by [LoadFileIfExists] on the
    same path returns exactly the data with a nil error, and
    [GetFileSHA256Checksum] after [WriteFile] returns the checksum string of
    the data; in the pointer-receiver lineage. *)
Theorem WriteFile_then_LoadFileIfExists {W : Type} `{NativeOS W}
  (w w' : W) (path p : string) (data : bytes) (mode : FileMode) (fi : FileInfo) :
  expand w path = (p, None) ->
  sys_WriteFile p data mode w = (None, w') ->
  expand w' path = (p, None) ->
  sys_Stat w' p = inr fi -> fi_IsDir fi = false ->
  sys_ReadFile w' p = (data, None) ->
  bind (PointerReceiver.WriteFile path data mode)
       (fun _ => PointerReceiver.LoadFileIfExists path) w
  = Ok ((data, None), w')
  /\ bind (PointerReceiver.WriteFile path data mode)
          (fun _ => PointerReceiver.GetFileSHA256Checksum path) w
     = Ok ((checksum_string data, None), w').
Proof.
  intros E Wr E' S D R.
  unfold PointerReceiver.WriteFile, PointerReceiver.LoadFileIfExists,
    PointerReceiver.GetFileSHA256Checksum, PointerReceiver.isFile,
    PointerReceiver.BuildAbsolutePathFromHome.
  run. drive. split; reflexivity.
Qed.

(** On [MemFS.host], the new file /srv/note written with mode 0644. *)
Lemma WriteFile_then_LoadFileIfExists_witness :
  let m := snd (MemFS.WriteFile "/srv/note" "test" 420 MemFS.host) in
  bind (PointerReceiver.WriteFile "/srv/note" "test" 420)
       (fun _ => PointerReceiver.LoadFileIfExists "/srv/note") MemFS.host
  = Ok (("test", None), m)
  /\ PointerReceiver.CheckExists "/srv/note" MemFS.host = Ok (false, MemFS.host)
  /\ PointerReceiver.IsFile "/srv/note" m = Ok (true, m).
Proof.
  split; [|split; reflexivity].
  exact (proj1 (@WriteFile_then_LoadFileIfExists _ MemFS.native MemFS.host
                  (snd (MemFS.WriteFile "/srv/note" "test" 420 MemFS.host))
                  "/srv/note" "/srv/note" "test" 420 (mkFileInfo "note" false)
                  eq_refl eq_refl eq_refl eq_refl eq_refl eq_refl)).
Defined.

(** X18: the package-level [LoadFileIfExists] has no error result: for a
    path that is a directory or is missing it returns the empty string, as
    it does for a file that is empty; for a file that is read it returns
    the content; and when the read of a file fails it panics with the error
    of the read. *)
Theorem LoadFileIfExists_package_cases {W : Type} `{NativeOS W}
  (w : W) (path p : string) :
  fst (expand w path) = p -> fst (expand w p) = p ->
  (forall fi c, sys_Stat w p = inr fi -> fi_IsDir fi = false ->
                sys_ReadFile w p = (c, None) ->
                PackageLevel.LoadFileIfExists path w = Ok (c, w))
  /\ (forall fi c e, sys_Stat w p = inr fi -> fi_IsDir fi = false ->
                     sys_ReadFile w p = (c, Some e) ->
                     PackageLevel.LoadFileIfExists path w
                     = Panic (PanicValue (Some e)))
  /\ (forall fi, sys_Stat w p = inr fi -> fi_IsDir fi = true ->
                 PackageLevel.LoadFileIfExists path w = Ok (EmptyString, w))
  /\ (sys_Stat w p = inl (SyscallError ENOENT) ->
      PackageLevel.LoadFileIfExists path w = Ok (EmptyString, w)).
Proof.
  intros E1 E2.
  unfold PackageLevel.LoadFileIfExists, PackageLevel.IsFile,
    PackageLevel.BuildAbsolutePathFromHome.
  run. destruct (expand w path) as [p1 e1]. cbn [fst] in E1. subst p1.
  cbv beta iota zeta.
  destruct (expand w p) as [p2 e2]. cbn [fst] in E2. subst p2.
  repeat split; intros; drive; reflexivity.
Qed.

Lemma LoadFileIfExists_package_cases_witness :
  PackageLevel.LoadFileIfExists "/etc/passwd" MemFS.host = Ok ("root:x:0:0", MemFS.host)
  /\ PackageLevel.LoadFileIfExists "/srv/secret" MemFS.host
     = Panic (PanicValue (Some (SyscallError EACCES)))
  /\ PackageLevel.LoadFileIfExists "/srv" MemFS.host = Ok (EmptyString, MemFS.host)
  /\ PackageLevel.LoadFileIfExists "~bob/x" MemFS.host = Ok (EmptyString, MemFS.host).
Proof.
  split; [|split; [|split]].
  - destruct (LoadFileIfExists_package_cases MemFS.host "/etc/passwd" "/etc/passwd"
                eq_refl eq_refl) as [R _].
    exact (R (mkFileInfo "passwd" false) "root:x:0:0" eq_refl eq_refl eq_refl).
  - destruct (LoadFileIfExists_package_cases MemFS.host "/srv/secret" "/srv/secret"
                eq_refl eq_refl) as [_ [F _]].
    exact (F (mkFileInfo "secret" false) EmptyString (SyscallError EACCES)
             eq_refl eq_refl eq_refl).
  - destruct (LoadFileIfExists_package_cases MemFS.host "/srv" "/srv"
                eq_refl eq_refl) as [_ [_ [D _]]].
    exact (D (mkFileInfo "srv" true) eq_refl eq_refl).
  - destruct (LoadFileIfExists_package_cases MemFS.host "~bob/x" EmptyString
                eq_refl eq_refl) as [_ [_ [_ N]]].
    exact (N eq_refl).
Defined.

(** ** initialize *)

(** X19: in the pointer-receiver lineage a [Filesystem] without a logger
    gets one whose level is fixed by the verbosity: 0 gives [ErrorLevel], 1
    gives [WarnLevel], 2 and 3 give [InfoLevel], and every verbosity from 4
    on gives [DebugLevel].  So the level grows with the verbosity: a higher
    verbosity never gives a less verbose level, [ErrorLevel] is the least
    verbose level used and [DebugLevel] the most verbose one. *)
Theorem initialize_pointer_monotone (v1 v2 : N) :
  (v1 <= v2)%N ->
  match Logging.Logger_of (Logging.Pointer.initialize (Logging.mkFilesystem v1 None)),
        Logging.Logger_of (Logging.Pointer.initialize (Logging.mkFilesystem v2 None))
  with
  | Some l1, Some l2 =>
      Logging.rank Logging.ErrorLevel <= Logging.rank (Logging.Level_of l1)
      /\ Logging.rank (Logging.Level_of l1) <= Logging.rank (Logging.Level_of l2)
      /\ Logging.rank (Logging.Level_of l2) <= Logging.rank Logging.DebugLevel
      /\ (v1 = 0%N -> Logging.Level_of l1 = Logging.ErrorLevel)
      /\ ((4 <= v2)%N -> Logging.Level_of l2 = Logging.DebugLevel)
      /\ Logging.Level_of l1
         = (if (v1 =? 0)%N then Logging.ErrorLevel
            else if (v1 =? 1)%N then Logging.WarnLevel
            else if (v1 <=? 3)%N then Logging.InfoLevel
            else Logging.DebugLevel)
      /\ Logging.Level_of l2
         = (if (v2 =? 0)%N then Logging.ErrorLevel
            else if (v2 =? 1)%N then Logging.WarnLevel
            else if (v2 <=? 3)%N then Logging.InfoLevel
            else Logging.DebugLevel)
  | _, _ => False
  end.
Proof.
  intro L. unfold Logging.Pointer.initialize.
  cbn [Logging.Logger_of Logging.Verbosity is_nil Logging.Level_of].
  destruct v1 as [|[[p1|p1|]|[p1|p1|]|]]; destruct v2 as [|[[p2|p2|]|[p2|p2|]|]];
    cbn [Logging.rank]; repeat split; intros; try reflexivity; try lia.
Qed.

(** Verbosity 1 against 3. *)
Lemma initialize_pointer_monotone_witness :
  Logging.Logger_of (Logging.Pointer.initialize (Logging.mkFilesystem 1 None))
  = Some (Logging.mkLogger Logging.WarnLevel)
  /\ Logging.Logger_of (Logging.Pointer.initialize (Logging.mkFilesystem 3 None))
     = Some (Logging.mkLogger Logging.InfoLevel)
  /\ Logging.rank Logging.WarnLevel <= Logging.rank Logging.InfoLevel.
Proof.
  pose proof (initialize_pointer_monotone 1 3 ltac:(discriminate))
    as [_ [M _]].
  split; [reflexivity|]. split; [reflexivity|]. exact M.
Defined.

(** X20: the pointer-receiver [initialize] never replaces a logger: a
    [Filesystem] that has one (handed in by the caller, or made by an
    earlier call) is left exactly as it is, whatever its verbosity.  So
    [initialize] is idempotent, it always leaves a logger in place, and it
    never changes the verbosity. *)
Theorem initialize_pointer_keeps_logger (fs : Logging.Filesystem) :
  Logging.Pointer.initialize (Logging.Pointer.initialize fs)
  = Logging.Pointer.initialize fs
  /\ Logging.Logger_of (Logging.Pointer.initialize fs) <> None
  /\ Logging.Verbosity (Logging.Pointer.initialize fs) = Logging.Verbosity fs
  /\ (Logging.Logger_of fs <> None -> Logging.Pointer.initialize fs = fs).
Proof.
  destruct fs as [v [l|]]; unfold Logging.Pointer.initialize;
    cbn [Logging.Logger_of Logging.Verbosity is_nil].
  - repeat split. discriminate.
  - repeat split; [discriminate | intro C; exfalso; apply C; reflexivity].
Qed.

Lemma initialize_pointer_keeps_logger_witness :
  Logging.Pointer.initialize
    (Logging.mkFilesystem 0 (Some (Logging.mkLogger Logging.DebugLevel)))
  = Logging.mkFilesystem 0 (Some (Logging.mkLogger Logging.DebugLevel)).
Proof.
  apply (initialize_pointer_keeps_logger
           (Logging.mkFilesystem 0 (Some (Logging.mkLogger Logging.DebugLevel)))).
  discriminate.
Defined.

(** X21: in src/filesystem.go [initialize] sets the level of the logger of
    the logrus package, which all [Filesystem] values share.  A
    [Filesystem] of verbosity 0, 1 or 2 (without a logger) overrides
    whatever an earlier one had set, with Warn, Info or Debug; one of
    verbosity 3 or more sets nothing and runs at the level the earlier one
    left. *)
Theorem initialize_value_shares_level (fs1 fs2 : Logging.Filesystem)
  (std : Logging.Level) :
  Logging.Logger_of fs2 = None ->
  ((Logging.Verbosity fs2 <= 2)%N ->
     Logging.Value.initialize fs2 (Logging.Value.initialize fs1 std)
     = Logging.Value.initialize fs2 std
     /\ Logging.rank (Logging.Value.initialize fs2 std)
        = 3 + Z.of_N (Logging.Verbosity fs2))
  /\ ((3 <= Logging.Verbosity fs2)%N ->
        Logging.Value.initialize fs2 (Logging.Value.initialize fs1 std)
        = Logging.Value.initialize fs1 std).
Proof.
  destruct fs2 as [v2 l2]. cbn [Logging.Logger_of Logging.Verbosity].
  intro N. subst l2. unfold Logging.Value.initialize at 1 3 4 5.
  cbn [Logging.Logger_of Logging.Verbosity is_nil].
  destruct v2 as [|[[p2|p2|]|[p2|p2|]|]]; split; intros; try lia;
    try (split; reflexivity); reflexivity.
Qed.

(** A [Filesystem] of verbosity 2 sets Debug for all; one of verbosity 0
    after it turns all down to Warn; one of verbosity 3 after that still
    runs at Warn. *)
Lemma initialize_value_shares_level_witness :
  let quiet := Logging.mkFilesystem 0 None in
  let loud := Logging.mkFilesystem 2 None in
  let louder := Logging.mkFilesystem 3 None in
  Logging.Value.initialize quiet (Logging.Value.initialize loud Logging.InfoLevel)
  = Logging.WarnLevel
  /\ Logging.Value.initialize louder (Logging.Value.initialize quiet Logging.InfoLevel)
     = Logging.WarnLevel.
Proof.
  split.
  - exact (proj1 (proj1 (initialize_value_shares_level
                           (Logging.mkFilesystem 2 None) (Logging.mkFilesystem 0 None)
                           Logging.InfoLevel eq_refl)
                        ltac:(discriminate))).
  - exact (proj2 (initialize_value_shares_level
                    (Logging.mkFilesystem 0 None) (Logging.mkFilesystem 3 None)
                    Logging.InfoLevel eq_refl)
                 ltac:(discriminate)).
Defined.

(** ** IsEmptyDirectory *)

(** X22: the pointer-receiver [IsEmptyDirectory] on a path that expands to
    a directory.  If the directory cannot be opened the answer is false.  If
    it opens, one entry is asked for: when that read ends with a nil error
    or with [io.EOF], the answer is whether no entry came back; when it ends
    with any other error, the answer is false.  The machine is not
    touched. *)
Theorem IsEmptyDirectory_pointer_contract {W : Type} `{NativeOS W}
  (w : W) (path p : string) (fi : FileInfo) :
  expand w path = (p, None) -> sys_Stat w p = inr fi -> fi_IsDir fi = true ->
  (forall e, sys_Open w p = inl e ->
             PointerReceiver.IsEmptyDirectory path w = Ok (false, w))
  /\ (forall f contents err,
        sys_Open w p = inr f -> sys_Readdir w f 1 = (contents, err) ->
        PointerReceiver.IsEmptyDirectory path w
        = Ok (if is_nil err || is_EOF err
              then Z.of_nat (List.length contents) =? 0
              else false, w)).
Proof.
  intros E S D.
  unfold PointerReceiver.IsEmptyDirectory, PointerReceiver.isDirectory,
    PointerReceiver.BuildAbsolutePathFromHome.
  split.
  - intros e O. run. drive. reflexivity.
  - intros f contents err O R. run. drive.
    destruct (is_nil err || is_EOF err); reflexivity.
Qed.

(** On [MemFS.host]: /srv holds a file; a directory just made holds
    nothing; a file written into it makes it not empty. *)
Lemma IsEmptyDirectory_pointer_contract_witness :
  let made := snd (MemFS.MkdirAll "/srv/a" 493 MemFS.host) in
  let filled := snd (MemFS.WriteFile "/srv/a/test.file" "test" 420 made) in
  PointerReceiver.IsEmptyDirectory "/srv" MemFS.host = Ok (false, MemFS.host)
  /\ PointerReceiver.IsEmptyDirectory "/srv/a" made = Ok (true, made)
  /\ PointerReceiver.IsEmptyDirectory "/srv/a" filled = Ok (false, filled).
Proof.
  split; [|split].
  - destruct (@IsEmptyDirectory_pointer_contract _ MemFS.native MemFS.host "/srv" "/srv"
                (mkFileInfo "srv" true) eq_refl eq_refl eq_refl) as [_ R].
    exact (R (mkFile "/srv") [mkFileInfo "secret" false] None eq_refl eq_refl).
  - destruct (@IsEmptyDirectory_pointer_contract _ MemFS.native
                (snd (MemFS.MkdirAll "/srv/a" 493 MemFS.host)) "/srv/a" "/srv/a"
                (mkFileInfo "a" true) eq_refl eq_refl eq_refl) as [_ R].
    exact (R (mkFile "/srv/a") [] (Some io_EOF) eq_refl eq_refl).
  - destruct (@IsEmptyDirectory_pointer_contract _ MemFS.native
                (snd (MemFS.WriteFile "/srv/a/test.file" "test" 420
                        (snd (MemFS.MkdirAll "/srv/a" 493 MemFS.host))))
                "/srv/a" "/srv/a"
                (mkFileInfo "a" true) eq_refl eq_refl eq_refl) as [_ R].
    exact (R (mkFile "/srv/a") [mkFileInfo "test.file" false] None eq_refl eq_refl).
Defined.
